(** * Usage-reporting option normalisation: [legacyOptionsToPluginOptions]

    A shallow embedding of
    [packages/apollo-server-core/src/plugin/usageReporting/legacyOptions.ts].

    The function receives the legacy [engine] option object, builds a
    fresh [pluginOptions] object by a sequence of property assignments,
    may delete one property of [engine], and either returns
    [pluginOptions] or throws [new Error(message)].  JavaScript objects
    are finite maps from property names to values; a property that is
    missing reads as [undefined].  The properties of [engine] are data
    properties; some of them may be non-configurable, as all are on a
    sealed or frozen object, and the [delete] of line 317, which runs in
    strict mode, then throws a [TypeError]. *)

From Stdlib Require Import PrimFloat.
From stdpp Require Import gmap strings list fin_maps.

Set Warnings "-register-all".
Local Open Scope string_scope.

(** ** JavaScript values *)

Module Js.

(** Function values.  The only function the module itself creates is the
    arrow function of line 316; every other function reaches it from the
    caller and is identified by a reference. *)
Inductive Func : Type :=
| FExternal (ref : nat)
| FMasked.

Inductive Value : Type :=
| VUndefined
| VNull
| VBool (b : bool)
| VNumber (x : float)
| VString (s : string)
| VFunction (f : Func)
| VArray (elems : list Value)
| VObject (props : list (string * Value)).

(** An object used as a record of options. *)
Abbreviation Obj := (gmap string Value).

(** [o.k] *)
Definition get (o : Obj) (k : string) : Value := default VUndefined (o !! k).

(** ToBoolean: [undefined], [null], [false], [+0], [-0], [NaN] and the
    empty string are falsy, everything else is truthy. *)
Definition truthy (v : Value) : bool :=
  match v with
  | VUndefined | VNull => false
  | VBool b => b
  | VNumber x => negb (PrimFloat.eqb x PrimFloat.zero) && PrimFloat.eqb x x
  | VString s => negb (String.eqb s "")
  | VFunction _ | VArray _ | VObject _ => true
  end.

(** The [typeof] operator. *)
Definition typeof (v : Value) : string :=
  match v with
  | VUndefined => "undefined"
  | VNull => "object"
  | VBool _ => "boolean"
  | VNumber _ => "number"
  | VString _ => "string"
  | VFunction _ => "function"
  | VArray _ | VObject _ => "object"
  end.

(** [Array.isArray] *)
Definition isArray (v : Value) : bool :=
  match v with VArray _ => true | _ => false end.

(** [o] has the own property [k]. *)
Definition isOwn (o : Obj) (k : string) : bool :=
  match o !! k with Some _ => true | None => false end.

(** [v === undefined] *)
Definition isUndefined (v : Value) : bool :=
  match v with VUndefined => true | _ => false end.

(** [v === null] *)
Definition isNull (v : Value) : bool :=
  match v with VNull => true | _ => false end.

End Js.

Import Js.

(** ** Statements: reads and writes of the two objects, and exceptions *)

(** How a statement ends: normally with a value, by
    [throw new Error(message)], or by the [TypeError] that a failing
    [delete] throws in strict mode. *)
Inductive Completion (A : Type) : Type :=
| Normal (a : A)
| Throw (message : string)
| ThrowTypeError.
Arguments Normal {A} a.
Arguments Throw {A} message.
Arguments ThrowTypeError {A}.

(** The two objects the function works on.  [engine] is the caller's
    object, reached through the parameter; [pluginOptions] is the local
    object created at line 288. *)
Record Heap : Type := mkHeap { heap_engine : Obj; heap_pluginOptions : Obj }.

Definition Stmt (A : Type) : Type := Heap -> Completion A * Heap.

#[global] Instance stmt_ret : MRet Stmt := fun A a h => (Normal a, h).

#[global] Instance stmt_bind : MBind Stmt := fun A B k m h =>
  match m h with
  | (Normal a, h') => k a h'
  | (Throw msg, h') => (Throw msg, h')
  | (ThrowTypeError, h') => (ThrowTypeError, h')
  end.

(** [o.k = v] and [delete o.k] on an object. *)
Definition set_prop (k : string) (v : Value) (o : Obj) : Obj := <[k := v]> o.
Definition delete_prop (k : string) (o : Obj) : Obj := delete k o.

(** The expressions of this function only read properties of [engine]
    and combine the values read: they change nothing and throw nothing.
    An expression is therefore a function of the [engine] object as it
    is when the expression is evaluated. *)
Definition Expr : Type := Obj -> Value.

(** [engine.k] *)
Definition engine_get (k : string) : Expr := fun engine => get engine k.

(** [a && b]: the right operand is evaluated only when the left one is
    truthy, and the value of the deciding operand is the result. *)
Definition and_ (a b : Expr) : Expr :=
  fun engine => if truthy (a engine) then b engine else a engine.

(** [a ?? b] *)
Definition coalesce (a b : Expr) : Expr :=
  fun engine =>
    match a engine with
    | VUndefined | VNull => b engine
    | v => v
    end.

(** [typeof a === s] and [typeof a !== s] *)
Definition typeof_is (a : Expr) (s : string) : Expr :=
  fun engine => VBool (String.eqb (typeof (a engine)) s).
Definition typeof_isnt (a : Expr) (s : string) : Expr :=
  fun engine => VBool (negb (String.eqb (typeof (a engine)) s)).

(** [a !== null] *)
Definition isnt_null (a : Expr) : Expr :=
  fun engine => VBool (negb (isNull (a engine))).

(** A function literal, and a call [f(a)] of a function of this module. *)
Definition literal (v : Value) : Expr := fun _ => v.
Definition call (f : Value -> Value) (a : Expr) : Expr :=
  fun engine => f (a engine).

(** [pluginOptions.k = a] *)
Definition assign (k : string) (a : Expr) : Stmt unit :=
  fun h =>
    (Normal tt,
     mkHeap (heap_engine h) (set_prop k (a (heap_engine h)) (heap_pluginOptions h))).

(** [fixed] lists the own properties of [engine] that are not
    configurable: none for an ordinary object, all of them for a sealed
    or frozen one. *)
Definition nonConfigurable (fixed : list string) (k : string) : bool :=
  existsb (String.eqb k) fixed.

(** [delete engine.k], in strict mode (the file is a module): deleting
    an own property that is not configurable throws a [TypeError] and
    changes nothing; any other property is removed, a missing one
    vacuously. *)
Definition engine_delete (fixed : list string) (k : string) : Stmt unit :=
  fun h =>
    if isOwn (heap_engine h) k && nonConfigurable fixed k
    then (ThrowTypeError, h)
    else (Normal tt,
          mkHeap (delete_prop k (heap_engine h)) (heap_pluginOptions h)).

(** [throw new Error(msg)] *)
Definition throw {A : Type} (msg : string) : Stmt A :=
  fun h => (Throw msg, h).

(** [if (c) t else e] *)
Definition if_ {A : Type} (c : Expr) (t e : Stmt A) : Stmt A :=
  fun h => if truthy (c (heap_engine h)) then t h else e h.

(** [pluginOptions], as the operand of [return]. *)
Definition plugin_read : Stmt Obj :=
  fun h => (Normal (heap_pluginOptions h), h).

(** ** The messages of the four [throw] statements *)

(** line 312 *)
Definition maskRewriteMessage : string :=
  "Can't set both maskErrorDetails and rewriteError!".

(** line 314 *)
Definition rewriteTypeMessage : string :=
  "rewriteError must be a function".

(** lines 329-331 *)
Definition variablesMessage : string :=
  "You have set both the 'sendVariableValues' and the deprecated 'privateVariables' options. " ++
  "Please only set 'sendVariableValues' (ideally, when calling `ApolloServerPluginUsageReporting` " ++
  "instead of the deprecated `engine` option to the `ApolloServer` constructor).".

(** lines 346-348 *)
Definition headersMessage : string :=
  "You have set both the 'sendHeaders' and the deprecated 'privateVariables' options. " ++
  "Please only set 'sendHeaders' (ideally, when calling `ApolloServerPluginUsageReporting` " ++
  "instead of the deprecated `engine` option to the `ApolloServer` constructor).".

(** ** [makeSendValuesBaseOptionsFromLegacy] (lines 365-375) *)

Definition makeSendValuesBaseOptionsFromLegacy (legacyPrivateOption : Value) : Value :=
  if isArray legacyPrivateOption
  then VObject [("exceptNames", legacyPrivateOption)]
  else if truthy legacyPrivateOption
  then VObject [("none", VBool true)]
  else VObject [("all", VBool true)].

(** ** [legacyOptionsToPluginOptions] (lines 285-360)

    The body is a sequence of four groups of statements, in the order
    of the source; the last three are introduced there by a comment. *)

(** lines 292-308 *)
Definition copyOptions : Stmt unit :=
  assign "calculateSignature" (engine_get "calculateSignature");;
  assign "reportIntervalMs" (engine_get "reportIntervalMs");;
  assign "maxUncompressedReportSize" (engine_get "maxUncompressedReportSize");;
  assign "endpointUrl"
    (coalesce (engine_get "tracesEndpointUrl") (engine_get "endpointUrl"));;
  assign "debugPrintReports" (engine_get "debugPrintReports");;
  assign "requestAgent" (engine_get "requestAgent");;
  assign "maxAttempts" (engine_get "maxAttempts");;
  assign "minimumRetryDelayMs" (engine_get "minimumRetryDelayMs");;
  assign "reportErrorFunction" (engine_get "reportErrorFunction");;
  assign "sendVariableValues" (engine_get "sendVariableValues");;
  if_ (typeof_is (engine_get "reportTiming") "function")
    (assign "includeRequest" (engine_get "reportTiming"))
    (mret tt);;
  assign "sendHeaders" (engine_get "sendHeaders");;
  assign "sendReportsImmediately" (engine_get "sendReportsImmediately").

(** lines 310-320: "Normalize the legacy option maskErrorDetails." *)
Definition normalizeMaskErrorDetails (fixed : list string) : Stmt unit :=
  if_ (and_ (engine_get "maskErrorDetails") (engine_get "rewriteError"))
    (throw maskRewriteMessage)
  (if_ (and_ (engine_get "rewriteError")
             (typeof_isnt (engine_get "rewriteError") "function"))
    (throw rewriteTypeMessage)
  (if_ (engine_get "maskErrorDetails")
    (assign "rewriteError" (literal (VFunction FMasked));;
     engine_delete fixed "maskErrorDetails")
  (if_ (engine_get "rewriteError")
    (assign "rewriteError" (engine_get "rewriteError"))
    (mret tt)))).

(** lines 323-341: "Handle the legacy option: privateVariables" *)
Definition handlePrivateVariables : Stmt unit :=
  if_ (and_ (typeof_isnt (engine_get "privateVariables") "undefined")
            (engine_get "sendVariableValues"))
    (throw variablesMessage)
  (if_ (typeof_isnt (engine_get "privateVariables") "undefined")
    (if_ (isnt_null (engine_get "privateVariables"))
       (assign "sendVariableValues"
          (call makeSendValuesBaseOptionsFromLegacy (engine_get "privateVariables")))
       (mret tt))
    (assign "sendVariableValues" (engine_get "sendVariableValues"))).

(** lines 343-358: "Handle the legacy option: privateHeaders" *)
Definition handlePrivateHeaders : Stmt unit :=
  if_ (and_ (typeof_isnt (engine_get "privateHeaders") "undefined")
            (engine_get "sendHeaders"))
    (throw headersMessage)
  (if_ (typeof_isnt (engine_get "privateHeaders") "undefined")
    (if_ (isnt_null (engine_get "privateHeaders"))
       (assign "sendHeaders"
          (call makeSendValuesBaseOptionsFromLegacy (engine_get "privateHeaders")))
       (mret tt))
    (assign "sendHeaders" (engine_get "sendHeaders"))).

Definition legacyOptionsToPluginOptions_body (fixed : list string) : Stmt Obj :=
  copyOptions;;
  normalizeMaskErrorDetails fixed;;
  assign "generateClientInfo" (engine_get "generateClientInfo");;
  handlePrivateVariables;;
  handlePrivateHeaders;;
  plugin_read.

(** A call [legacyOptionsToPluginOptions(engine)] on an object whose
    non-configurable own properties are [fixed]: how it completes (the
    returned object, or what is thrown), and the caller's [engine]
    object as the call leaves it. *)
Definition legacyOptionsToPluginOptionsOn
    (fixed : list string) (engine : Obj) : Completion Obj * Obj :=
  let '(c, h) := legacyOptionsToPluginOptions_body fixed (mkHeap engine ∅) in
  (c, heap_engine h).

Definition outcomeOn (fixed : list string) (engine : Obj) : Completion Obj :=
  fst (legacyOptionsToPluginOptionsOn fixed engine).
Definition engineAfterOn (fixed : list string) (engine : Obj) : Obj :=
  snd (legacyOptionsToPluginOptionsOn fixed engine).

(** The call on an ordinary object, all of whose properties can be
    deleted. *)
Definition legacyOptionsToPluginOptions (engine : Obj) : Completion Obj * Obj :=
  legacyOptionsToPluginOptionsOn [] engine.

(** The two components of a call. *)
Definition outcome (engine : Obj) : Completion Obj :=
  fst (legacyOptionsToPluginOptions engine).
Definition engineAfter (engine : Obj) : Obj :=
  snd (legacyOptionsToPluginOptions engine).

(** ** The function created at line 316, and calling a [rewriteError] *)




(** ** The error taxonomy and the redaction rules *)

(** The function throws plain [Error]s.  The specification sorts them
    into two kinds: [ConflictingOptions] when two mutually exclusive
    options are both set, [InvalidOptionType] when an option has a value
    of the wrong shape.  [errorKind] gives the kind of each of the four
    messages. *)
Inductive ConfigError : Type :=
| ConflictingOptions
| InvalidOptionType.

Definition errorKind (msg : string) : option ConfigError :=
  if String.eqb msg maskRewriteMessage then Some ConflictingOptions
  else if String.eqb msg variablesMessage then Some ConflictingOptions
  else if String.eqb msg headersMessage then Some ConflictingOptions
  else if String.eqb msg rewriteTypeMessage then Some InvalidOptionType
  else None.

(** [mentions name msg]: the option name occurs in the message. *)
Definition mentions (name msg : string) : bool :=
  match String.index 0 name msg with
  | Some _ => true
  | None => false
  end.

(** The forms of [sendVariableValues] and [sendHeaders] (lines 80-86 and
    150-154), and the object each one is. *)
Inductive RedactionRule : Type :=
| RuleNone
| RuleAll
| RuleExceptNames (names : list string)
| RuleOnlyNames (names : list string)
| RuleTransform (f : Func).

Definition namesArray (names : list string) : Value :=
  VArray (VString <$> names).

Definition ruleValue (r : RedactionRule) : Value :=
  match r with
  | RuleNone => VObject [("none", VBool true)]
  | RuleAll => VObject [("all", VBool true)]
  | RuleExceptNames names => VObject [("exceptNames", namesArray names)]
  | RuleOnlyNames names => VObject [("onlyNames", namesArray names)]
  | RuleTransform f => VObject [("transform", VFunction f)]
  end.

(** ** The tests of the [if] statements, as functions of [engine] *)

(** line 311 *)
Definition maskConflict (engine : Obj) : bool :=
  truthy (get engine "maskErrorDetails") && truthy (get engine "rewriteError").

(** line 313 *)
Definition rewriteNotFunction (engine : Obj) : bool :=
  truthy (get engine "rewriteError") &&
  negb (String.eqb (typeof (get engine "rewriteError")) "function").

(** line 315, reached when the two tests above are false: the branch
    that installs the masking function and deletes the flag. *)
Definition masksErrors (engine : Obj) : bool :=
  truthy (get engine "maskErrorDetails") && negb (truthy (get engine "rewriteError")).

(** line 317 is reached and its [delete] throws: the property is there,
    since it is truthy, and it is not configurable. *)
Definition deleteThrows (fixed : list string) (engine : Obj) : bool :=
  masksErrors engine && nonConfigurable fixed "maskErrorDetails".

(** lines 324-327 and 344 *)
Definition legacyConflict (deprecated current : string) (engine : Obj) : bool :=
  negb (String.eqb (typeof (get engine deprecated)) "undefined") &&
  truthy (get engine current).

Definition variablesConflict : Obj -> bool :=
  legacyConflict "privateVariables" "sendVariableValues".
Definition headersConflict : Obj -> bool :=
  legacyConflict "privateHeaders" "sendHeaders".

(** The message of the first [throw] statement that is reached, if any. *)
Definition firstError (engine : Obj) : option string :=
  if maskConflict engine then Some maskRewriteMessage
  else if rewriteNotFunction engine then Some rewriteTypeMessage
  else if variablesConflict engine then Some variablesMessage
  else if headersConflict engine then Some headersMessage
  else None.



(** ** The returned object, written as one expression

    What the statements leave in [pluginOptions] and in [engine], as
    functions of the argument.  [legacyOptionsToPluginOptions_eq] proves
    that the statements compute exactly this. *)

(** lines 292-308 *)
Definition withDirectOptions (engine p0 : Obj) : Obj :=
  let p :=
    set_prop "sendVariableValues" (get engine "sendVariableValues")
   (set_prop "reportErrorFunction" (get engine "reportErrorFunction")
   (set_prop "minimumRetryDelayMs" (get engine "minimumRetryDelayMs")
   (set_prop "maxAttempts" (get engine "maxAttempts")
   (set_prop "requestAgent" (get engine "requestAgent")
   (set_prop "debugPrintReports" (get engine "debugPrintReports")
   (set_prop "endpointUrl"
      (coalesce (engine_get "tracesEndpointUrl") (engine_get "endpointUrl") engine)
   (set_prop "maxUncompressedReportSize" (get engine "maxUncompressedReportSize")
   (set_prop "reportIntervalMs" (get engine "reportIntervalMs")
   (set_prop "calculateSignature" (get engine "calculateSignature") p0))))))))) in
  let p :=
    if String.eqb (typeof (get engine "reportTiming")) "function"
    then set_prop "includeRequest" (get engine "reportTiming") p
    else p in
  set_prop "sendReportsImmediately" (get engine "sendReportsImmediately")
 (set_prop "sendHeaders" (get engine "sendHeaders") p).

(** lines 315-320 *)
Definition withRewriteError (engine p : Obj) : Obj :=
  if truthy (get engine "maskErrorDetails")
  then set_prop "rewriteError" (VFunction FMasked) p
  else if truthy (get engine "rewriteError")
  then set_prop "rewriteError" (get engine "rewriteError") p
  else p.

(** lines 333-341 and 350-358 *)
Definition withLegacy (deprecated current : string) (engine p : Obj) : Obj :=
  if negb (String.eqb (typeof (get engine deprecated)) "undefined")
  then
    if negb (isNull (get engine deprecated))
    then set_prop current (makeSendValuesBaseOptionsFromLegacy (get engine deprecated)) p
    else p
  else set_prop current (get engine current) p.

Definition pluginOptionsOf (engine : Obj) : Obj :=
  withLegacy "privateHeaders" "sendHeaders" engine
 (withLegacy "privateVariables" "sendVariableValues" engine
 (set_prop "generateClientInfo" (get engine "generateClientInfo")
 (withRewriteError engine (withDirectOptions engine ∅)))).

(** The [engine] object after the call. *)
Definition engineLeft (engine : Obj) : Obj :=
  if masksErrors engine then delete_prop "maskErrorDetails" engine else engine.

(** ** Property names *)

(** The properties the function assigns on [pluginOptions]. *)
Definition canonicalNames : list string :=
  ["calculateSignature"; "reportIntervalMs"; "maxUncompressedReportSize";
   "endpointUrl"; "debugPrintReports"; "requestAgent"; "maxAttempts";
   "minimumRetryDelayMs"; "reportErrorFunction"; "sendVariableValues";
   "includeRequest"; "sendHeaders"; "sendReportsImmediately";
   "rewriteError"; "generateClientInfo"].

(** The properties assigned from the property of [engine] of the same
    name, by lines 292-308, 319, 321, 340 and 357. *)
Definition sameNameOptions : list string :=
  ["calculateSignature"; "reportIntervalMs"; "maxUncompressedReportSize";
   "debugPrintReports"; "requestAgent"; "maxAttempts";
   "minimumRetryDelayMs"; "reportErrorFunction"; "sendVariableValues";
   "sendHeaders"; "sendReportsImmediately"; "rewriteError";
   "generateClientInfo"].

(** The properties of [engine] that carry a deprecation notice in
    [EngineReportingOptions] (lines 45, 137, 163, 180, 194, 254-266). *)
Definition deprecatedNames : list string :=
  ["endpointUrl"; "privateVariables"; "privateHeaders"; "maskErrorDetails";
   "schemaTag"; "experimental_schemaReporting";
   "experimental_overrideReportedSchema";
   "experimental_schemaReportingInitialDelayMaxMs"].

(** None of them is set. *)
Definition noDeprecated (engine : Obj) : bool :=
  forallb (fun k => isUndefined (get engine k)) deprecatedNames.

(** The properties of [engine] the function reads. *)
Definition readNames : list string :=
  ["calculateSignature"; "reportIntervalMs"; "maxUncompressedReportSize";
   "tracesEndpointUrl"; "endpointUrl"; "debugPrintReports"; "requestAgent";
   "maxAttempts"; "minimumRetryDelayMs"; "reportErrorFunction";
   "sendVariableValues"; "reportTiming"; "sendHeaders";
   "sendReportsImmediately"; "maskErrorDetails"; "rewriteError";
   "generateClientInfo"; "privateVariables"; "privateHeaders"].

(** The schema-reporting and logging properties (lines 206-266). *)
Definition schemaReportingNames : list string :=
  ["reportSchema"; "overrideReportedSchema";
   "schemaReportingInitialDelayMaxMs"; "schemaReportingUrl"; "logger";
   "experimental_schemaReporting"; "experimental_overrideReportedSchema";
   "experimental_schemaReportingInitialDelayMaxMs"].

(** ** The deprecated [Array<String> | boolean] options (lines 144, 169) *)

Inductive LegacyPrivate : Type :=
| PrivateNames (names : list string)
| PrivateBool (b : bool).

Definition privateValue (l : LegacyPrivate) : Value :=
  match l with
  | PrivateNames names => namesArray names
  | PrivateBool b => VBool b
  end.

(** The conversion as the documentation of [privateVariables] and
    [privateHeaders] states it (lines 138-140, 164-165): an array is
    [exceptNames], [true] is [none], [false] is [all]. *)
Definition documentedRule (l : LegacyPrivate) : RedactionRule :=
  match l with
  | PrivateNames names => RuleExceptNames names
  | PrivateBool true => RuleNone
  | PrivateBool false => RuleAll
  end.

(** ** Sample configurations *)

(** An object literal. *)
Definition object (props : list (string * Value)) : Obj := list_to_map props.

Definition userRewrite : Value := VFunction (FExternal 0).

Definition cfgMaskOnly : Obj :=
  object [("maskErrorDetails", VBool true)].

Definition cfgMaskThenConflict : Obj :=
  object [("maskErrorDetails", VBool true);
          ("privateVariables", VBool true);
          ("sendVariableValues", ruleValue RuleAll)].

Definition cfgBooleanTiming : Obj :=
  object [("reportTiming", VBool true)].

Definition cfgMaskAndRewrite : Obj :=
  object [("maskErrorDetails", VBool true); ("rewriteError", userRewrite)].




Definition cfgBothVariables : Obj :=
  object [("privateVariables", VBool true);
          ("sendVariableValues", ruleValue RuleAll)].



Definition cfgPrivateNames : Obj :=
  object [("privateVariables", namesArray ["a"; "b"]);
          ("privateHeaders", VBool false)].

Definition cfgRewriteFalse : Obj :=
  object [("rewriteError", VBool false)].

Definition cfgRewriteString : Obj :=
  object [("rewriteError", VString "x")].

Definition cfgCurrentOnly : Obj :=
  object [("reportIntervalMs", VNumber 5000%float);
          ("tracesEndpointUrl", VString "new");
          ("sendVariableValues", ruleValue RuleAll);
          ("reportTiming", VBool true);
          ("rewriteError", userRewrite)].

Definition cfgWithLogger : Obj :=
  object [("logger", VObject []); ("reportSchema", VBool true);
          ("debugPrintReports", VBool true)].

(** A completion that is a normal one whose value satisfies [P]. *)
Definition returns (c : Completion Obj) (P : Obj -> Prop) : Prop :=
  match c with
  | Normal o => P o
  | Throw _ | ThrowTypeError => False
  end.

(** ** More property names and configurations *)

(** The properties assigned unconditionally from the property of
    [engine] of the same name and never assigned again (lines 292-294,
    296-300, 308, 321). *)
Definition directNames : list string :=
  ["calculateSignature"; "reportIntervalMs"; "maxUncompressedReportSize";
   "debugPrintReports"; "requestAgent"; "maxAttempts";
   "minimumRetryDelayMs"; "reportErrorFunction"; "sendReportsImmediately";
   "generateClientInfo"].

(** The properties assigned on every path that reaches [return]
    (lines 292-301, 307, 308, 321). *)
Definition alwaysAssigned : list string :=
  ["calculateSignature"; "reportIntervalMs"; "maxUncompressedReportSize";
   "endpointUrl"; "debugPrintReports"; "requestAgent"; "maxAttempts";
   "minimumRetryDelayMs"; "reportErrorFunction"; "sendVariableValues";
   "sendHeaders"; "sendReportsImmediately"; "generateClientInfo"].

(** The properties of [engine] read by the tests that guard a [throw]
    (lines 311, 313, 324-327, 344). *)
Definition validatedNames : list string :=
  ["maskErrorDetails"; "rewriteError"; "privateVariables";
   "sendVariableValues"; "privateHeaders"; "sendHeaders"].

(** The own property names of an object: what [fixed] is when the
    object is sealed or frozen. *)
Definition ownNames (o : Obj) : list string := (map_to_list o).*1.

Definition cfgEmptyTraces : Obj :=
  object [("tracesEndpointUrl", VString ""); ("endpointUrl", VString "old")].

Definition cfgOldEndpoint : Obj :=
  object [("tracesEndpointUrl", VNull); ("endpointUrl", VString "old")].

Definition cfgTimingFunction : Obj :=
  object [("reportTiming", VFunction (FExternal 1))].

Definition cfgFlagFalse : Obj :=
  object [("maskErrorDetails", VBool false); ("rewriteError", userRewrite)].

Definition cfgUnvalidated : Obj :=
  object [("reportIntervalMs", VString "soon"); ("maxAttempts", VNull);
          ("sendVariableValues", VNumber 1%float)].


(** * The inventory fixture (the TypeScript module carried at the end of
      [PUBLISH.md], lines 42-117)

    A table of products and three resolvers.  The two
    [__resolveReference] resolvers look a product up in the table with
    [Array.prototype.find]; [goodDescription] inspects the first entry
    of [object.metadata]. *)

Module Inventory.

(** An entry of [inventory] (lines 88-99).  A property the literal omits
    reads as [undefined]: that is [None]. *)
Record Product : Type := mkProduct {
  sku : option string;
  isbn : option string;
  inStock : bool;
  isHeavy : option bool;
  isCheckedOut : option bool
}.

Definition furniture (s : string) (stock heavy : bool) : Product :=
  mkProduct (Some s) None stock (Some heavy) None.
Definition book (i : string) (stock out : bool) : Product :=
  mkProduct None (Some i) stock None (Some out).
Definition football (s : string) (stock : bool) : Product :=
  mkProduct (Some s) None stock None None.

Definition inventory : list Product :=
  [ furniture "TABLE1" true false;
    furniture "COUCH1" false true;
    furniture "CHAIR1" true false;
    book "0262510871" true true;
    book "0136291554" false false;
    book "0201633612" true false;
    football "FOOTBALL1" true;
    football "FOOTBALL2" true;
    football "FOOTBALL3" false;
    football "FOOTBALL4" true ].

(** [p === v] where [p] is a property of an inventory entry, that is a
    string or [undefined]: strict equality holds for two equal strings
    and for [undefined] with [undefined], and for nothing else. *)
Definition strictEq (p : option string) (v : Value) : bool :=
  match p, v with
  | Some s, VString s' => String.eqb s s'
  | None, VUndefined => true
  | _, _ => false
  end.

(** [Furniture.__resolveReference] (lines 103-105); [None] is the
    [undefined] that [find] returns when no entry matches. *)
Definition Furniture_resolveReference (object : Obj) : option Product :=
  List.find (fun product => strictEq (sku product) (get object "sku")) inventory.

(** [Book.__resolveReference] (lines 108-110) *)
Definition Book_resolveReference (object : Obj) : option Product :=
  List.find (fun product => strictEq (isbn product) (get object "isbn")) inventory.

(** How [goodDescription] ends: with a boolean, or with the [TypeError]
    of a property read on [undefined] or [null]. *)
Inductive Outcome : Type :=
| Returns (b : bool)
| TypeError.

(** The own property [k] of an object literal. *)
Fixpoint ownProp (props : list (string * Value)) (k : string) : Value :=
  match props with
  | [] => VUndefined
  | (k', v) :: rest => if String.eqb k' k then v else ownProp rest k
  end.

(** [v[0]], for [v] neither [undefined] nor [null]: the first element of
    an array, the first character of a string, the property ["0"] of an
    object; a number, a boolean or a function has no such property. *)
Definition first (v : Value) : Value :=
  match v with
  | VArray elems => List.hd VUndefined elems
  | VString (String c _) => VString (String c EmptyString)
  | VObject props => ownProp props "0"
  | _ => VUndefined
  end.

(** [v.description], for [v] neither [undefined] nor [null]: only an
    object can have it. *)
Definition description (v : Value) : Value :=
  match v with
  | VObject props => ownProp props "description"
  | _ => VUndefined
  end.

Definition nullish (v : Value) : bool := isUndefined v || isNull v.

(** [User.goodDescription] (lines 113-115):
    [object.metadata[0].description === '2'] *)
Definition User_goodDescription (object : Obj) : Outcome :=
  let metadata := get object "metadata" in
  if nullish metadata then TypeError
  else
    let entry := first metadata in
    if nullish entry then TypeError
    else
      match description entry with
      | VString s => Returns (String.eqb s "2")
      | _ => Returns false
      end.

End Inventory.

(** * Properties *)

(** ** Reading objects *)

Lemma get_empty k : get ∅ k = VUndefined.
Proof. unfold get. by rewrite lookup_empty. Qed.

Lemma get_set_prop_eq k v (o : Obj) : get (set_prop k v o) k = v.
Proof. unfold get, set_prop. by rewrite lookup_insert_eq. Qed.

Lemma get_set_prop_ne k k' v (o : Obj) :
  k ≠ k' → get (set_prop k v o) k' = get o k'.
Proof. intros Hne. unfold get, set_prop. by rewrite lookup_insert_ne. Qed.

Lemma lookup_set_prop_ne k k' v (o : Obj) :
  k ≠ k' → set_prop k v o !! k' = o !! k'.
Proof. intros Hne. unfold set_prop. by rewrite lookup_insert_ne. Qed.

Lemma get_delete_prop_eq k (o : Obj) : get (delete_prop k o) k = VUndefined.
Proof. unfold get, delete_prop. by rewrite lookup_delete_eq. Qed.

Lemma get_delete_prop_ne k k' (o : Obj) :
  k ≠ k' → get (delete_prop k o) k' = get o k'.
Proof. intros Hne. unfold get, delete_prop. by rewrite lookup_delete_ne. Qed.

Lemma lookup_delete_prop_ne k k' (o : Obj) :
  k ≠ k' → delete_prop k o !! k' = o !! k'.
Proof. intros Hne. unfold delete_prop. by rewrite lookup_delete_ne. Qed.

Lemma truthy_VBool b : truthy (VBool b) = b.
Proof. reflexivity. Qed.


(** ** The four groups of statements, run on a heap *)

Ltac js_eval :=
  lazy beta iota zeta delta
    [mbind mret stmt_bind stmt_ret assign engine_delete throw if_ plugin_read
     engine_get and_ typeof_is typeof_isnt isnt_null literal call
     heap_engine heap_pluginOptions andb negb
     maskConflict rewriteNotFunction masksErrors deleteThrows
     variablesConflict headersConflict legacyConflict
     withLegacy withRewriteError withDirectOptions engineLeft].

Ltac js_case b :=
  destruct b eqn:?; js_eval; rewrite ?truthy_VBool; js_eval.

Lemma run_copyOptions e p :
  copyOptions (mkHeap e p) = (Normal tt, mkHeap e (withDirectOptions e p)).
Proof.
  unfold copyOptions. js_eval. rewrite ?truthy_VBool.
  js_case (String.eqb (typeof (get e "reportTiming")) "function"); reflexivity.
Qed.

Lemma truthy_get_isOwn e k : truthy (get e k) = true → isOwn e k = true.
Proof. unfold get, isOwn. by destruct (e !! k). Qed.

Lemma run_normalizeMaskErrorDetails fixed e p :
  normalizeMaskErrorDetails fixed (mkHeap e p) =
  if maskConflict e then (Throw maskRewriteMessage, mkHeap e p)
  else if rewriteNotFunction e then (Throw rewriteTypeMessage, mkHeap e p)
  else if deleteThrows fixed e
  then (ThrowTypeError,
        mkHeap e (set_prop "rewriteError" (VFunction FMasked) p))
  else (Normal tt, mkHeap (engineLeft e) (withRewriteError e p)).
Proof.
  unfold normalizeMaskErrorDetails. js_eval.
  destruct (truthy (get e "maskErrorDetails")) eqn:Hm; js_eval;
    destruct (truthy (get e "rewriteError")) eqn:Hr; js_eval;
    rewrite ?Hm, ?Hr, ?truthy_VBool; js_eval; try reflexivity.
  all: try (rewrite (truthy_get_isOwn e _ Hm);
            by destruct (nonConfigurable fixed "maskErrorDetails")).
  all: destruct (String.eqb (typeof (get e "rewriteError")) "function");
    js_eval; rewrite ?Hm, ?Hr; reflexivity.
Qed.

Lemma run_handleLegacy deprecated current msg e p :
  if_ (and_ (typeof_isnt (engine_get deprecated) "undefined") (engine_get current))
    (throw msg)
  (if_ (typeof_isnt (engine_get deprecated) "undefined")
    (if_ (isnt_null (engine_get deprecated))
       (assign current (call makeSendValuesBaseOptionsFromLegacy (engine_get deprecated)))
       (mret tt))
    (assign current (engine_get current))) (mkHeap e p) =
  if legacyConflict deprecated current e then (Throw msg, mkHeap e p)
  else (Normal tt, mkHeap e (withLegacy deprecated current e p)).
Proof.
  js_eval. rewrite ?truthy_VBool.
  destruct (String.eqb (typeof (get e deprecated)) "undefined") eqn:Hu; js_eval;
    rewrite ?truthy_VBool, ?Hu; js_eval; try reflexivity.
  destruct (truthy (get e current)); js_eval; try reflexivity.
  rewrite ?truthy_VBool, ?Hu; js_eval. rewrite ?truthy_VBool.
  by destruct (isNull (get e deprecated)).
Qed.

Lemma run_handlePrivateVariables e p :
  handlePrivateVariables (mkHeap e p) =
  if variablesConflict e then (Throw variablesMessage, mkHeap e p)
  else (Normal tt, mkHeap e (withLegacy "privateVariables" "sendVariableValues" e p)).
Proof. apply run_handleLegacy. Qed.

Lemma run_handlePrivateHeaders e p :
  handlePrivateHeaders (mkHeap e p) =
  if headersConflict e then (Throw headersMessage, mkHeap e p)
  else (Normal tt, mkHeap e (withLegacy "privateHeaders" "sendHeaders" e p)).
Proof. apply run_handleLegacy. Qed.

(** ** Deleting [maskErrorDetails] does not change what is read later *)

Lemma get_engineLeft k e : k ≠ "maskErrorDetails" → get (engineLeft e) k = get e k.
Proof.
  intros Hne. unfold engineLeft. destruct (masksErrors e); [|done].
  by rewrite get_delete_prop_ne.
Qed.

Lemma legacyConflict_engineLeft deprecated current e :
  deprecated ≠ "maskErrorDetails" → current ≠ "maskErrorDetails" →
  legacyConflict deprecated current (engineLeft e) = legacyConflict deprecated current e.
Proof. intros Hd Hc. unfold legacyConflict. by rewrite !get_engineLeft. Qed.

Lemma withLegacy_engineLeft deprecated current e p :
  deprecated ≠ "maskErrorDetails" → current ≠ "maskErrorDetails" →
  withLegacy deprecated current (engineLeft e) p = withLegacy deprecated current e p.
Proof. intros Hd Hc. unfold withLegacy. by rewrite !get_engineLeft. Qed.

(** ** The call as one expression *)

Lemma deleteThrows_no_earlier_error fixed e :
  deleteThrows fixed e = true →
  maskConflict e = false ∧ rewriteNotFunction e = false ∧
  nonConfigurable fixed "maskErrorDetails" = true ∧ masksErrors e = true.
Proof.
  unfold deleteThrows, masksErrors, maskConflict, rewriteNotFunction.
  intros [[Hm Hr%negb_true_iff]%andb_true_iff Hn]%andb_true_iff.
  by rewrite Hm, Hr, Hn.
Qed.

(** On an object with non-configurable properties [fixed]: the failing
    [delete] comes after the two tests of the error-masking options,
    which cannot hold when it is reached, and before the tests of the
    redaction options. *)
Theorem legacyOptionsToPluginOptionsOn_eq fixed e :
  legacyOptionsToPluginOptionsOn fixed e =
    if deleteThrows fixed e then (ThrowTypeError, e)
    else (match firstError e with
          | Some msg => Throw msg
          | None => Normal (pluginOptionsOf e)
          end, engineLeft e).
Proof.
  unfold legacyOptionsToPluginOptionsOn, legacyOptionsToPluginOptions_body,
    firstError.
  lazy beta delta [mbind stmt_bind].
  rewrite run_copyOptions. lazy beta iota.
  rewrite run_normalizeMaskErrorDetails.
  destruct (deleteThrows fixed e) eqn:Hdt.
  { apply deleteThrows_no_earlier_error in Hdt as (-> & -> & _). done. }
  destruct (maskConflict e) eqn:Hmc.
  { lazy beta iota delta [heap_engine]. unfold engineLeft, masksErrors.
    unfold maskConflict in Hmc. apply andb_true_iff in Hmc as [-> ->]. done. }
  destruct (rewriteNotFunction e) eqn:Hrf.
  { lazy beta iota delta [heap_engine]. unfold engineLeft, masksErrors.
    unfold rewriteNotFunction in Hrf. apply andb_true_iff in Hrf as [-> _].
    by rewrite andb_false_r. }
  lazy beta iota delta [assign heap_engine heap_pluginOptions engine_get].
  rewrite run_handlePrivateVariables.
  unfold variablesConflict, headersConflict.
  rewrite legacyConflict_engineLeft by done.
  destruct (legacyConflict "privateVariables" _ e); [done|].
  lazy beta iota.
  rewrite run_handlePrivateHeaders. unfold headersConflict.
  rewrite legacyConflict_engineLeft by done.
  destruct (legacyConflict "privateHeaders" _ e); [done|].
  lazy beta iota delta [plugin_read heap_engine heap_pluginOptions].
  unfold pluginOptionsOf.
  by rewrite !withLegacy_engineLeft, get_engineLeft.
Qed.

(** On an ordinary object the [delete] cannot fail. *)
Theorem legacyOptionsToPluginOptions_eq e :
  legacyOptionsToPluginOptions e =
    (match firstError e with
     | Some msg => Throw msg
     | None => Normal (pluginOptionsOf e)
     end, engineLeft e).
Proof.
  unfold legacyOptionsToPluginOptions.
  rewrite legacyOptionsToPluginOptionsOn_eq.
  unfold deleteThrows, nonConfigurable. cbn [existsb].
  by rewrite andb_false_r.
Qed.

Corollary outcome_eq e :
  outcome e =
    match firstError e with
    | Some msg => Throw msg
    | None => Normal (pluginOptionsOf e)
    end.
Proof. unfold outcome. by rewrite legacyOptionsToPluginOptions_eq. Qed.

Corollary engineAfter_eq e : engineAfter e = engineLeft e.
Proof. unfold engineAfter. by rewrite legacyOptionsToPluginOptions_eq. Qed.

(** ** The properties of the returned object *)

Lemma get_of_lookup (o o' : Obj) k : o !! k = o' !! k → get o k = get o' k.
Proof. unfold get. by intros ->. Qed.

Lemma lookup_withRewriteError_ne e p k :
  k ≠ "rewriteError" → withRewriteError e p !! k = p !! k.
Proof.
  intros Hne. unfold withRewriteError.
  repeat case_match; rewrite ?lookup_set_prop_ne; done.
Qed.

Lemma get_withRewriteError e p :
  get (withRewriteError e p) "rewriteError" =
  if truthy (get e "maskErrorDetails") then VFunction FMasked
  else if truthy (get e "rewriteError") then get e "rewriteError"
  else get p "rewriteError".
Proof. unfold withRewriteError. repeat case_match; by rewrite ?get_set_prop_eq. Qed.

Lemma lookup_withLegacy_ne deprecated current e p k :
  k ≠ current → withLegacy deprecated current e p !! k = p !! k.
Proof.
  intros Hne. unfold withLegacy.
  repeat case_match; rewrite ?lookup_set_prop_ne; done.
Qed.

Lemma get_withLegacy deprecated current e p :
  get (withLegacy deprecated current e p) current =
  if String.eqb (typeof (get e deprecated)) "undefined" then get e current
  else if isNull (get e deprecated) then get p current
  else makeSendValuesBaseOptionsFromLegacy (get e deprecated).
Proof.
  unfold withLegacy.
  destruct (String.eqb _ _); cbn [negb]; [by rewrite get_set_prop_eq|].
  destruct (isNull _); cbn [negb]; by rewrite ?get_set_prop_eq.
Qed.

Lemma get_withLegacy_ne deprecated current e p k :
  k ≠ current → get (withLegacy deprecated current e p) k = get p k.
Proof. intros Hne. by apply get_of_lookup, lookup_withLegacy_ne. Qed.

Lemma get_withRewriteError_ne e p k :
  k ≠ "rewriteError" → get (withRewriteError e p) k = get p k.
Proof. intros Hne. by apply get_of_lookup, lookup_withRewriteError_ne. Qed.

Ltac split_names H :=
  repeat (apply not_elem_of_cons in H as [? H]); clear H.

Ltac elim_names H :=
  repeat (apply elem_of_cons in H as [->|H]); [..|by apply elem_of_nil in H].

Lemma lookup_withDirectOptions_other e p k :
  k ∉ canonicalNames → withDirectOptions e p !! k = p !! k.
Proof.
  intros Hk. unfold canonicalNames in Hk. split_names Hk.
  unfold withDirectOptions. cbn zeta.
  case_match; by rewrite !lookup_set_prop_ne.
Qed.

Lemma lookup_pluginOptionsOf_other e k :
  k ∉ canonicalNames → pluginOptionsOf e !! k = None.
Proof.
  intros Hk. unfold pluginOptionsOf.
  assert (Hk' := Hk). unfold canonicalNames in Hk'. split_names Hk'.
  rewrite !lookup_withLegacy_ne, lookup_set_prop_ne, lookup_withRewriteError_ne by done.
  by rewrite lookup_withDirectOptions_other.
Qed.

Ltac js_get :=
  repeat first
    [ rewrite get_set_prop_eq
    | rewrite get_set_prop_ne by discriminate ].

Lemma get_withDirectOptions_same e p k :
  k ∈ sameNameOptions → k ≠ "rewriteError" → k ≠ "generateClientInfo" →
  get (withDirectOptions e p) k = get e k.
Proof.
  intros Hk Hr Hg. unfold sameNameOptions in Hk. elim_names Hk; try done.
  all: unfold withDirectOptions; cbn zeta; case_match; by js_get.
Qed.


Lemma get_pluginOptionsOf_same e k :
  k ∈ sameNameOptions →
  k ≠ "sendVariableValues" → k ≠ "sendHeaders" → k ≠ "rewriteError" →
  get (pluginOptionsOf e) k = get e k.
Proof.
  intros Hk Hv Hh Hr. unfold pluginOptionsOf.
  rewrite 2!get_withLegacy_ne by done.
  destruct (decide (k = "generateClientInfo")) as [->|Hg].
  { by rewrite get_set_prop_eq. }
  rewrite get_set_prop_ne by done.
  rewrite get_withRewriteError_ne by done.
  by apply get_withDirectOptions_same.
Qed.

Lemma get_pluginOptionsOf_sendVariableValues e :
  get (pluginOptionsOf e) "sendVariableValues" =
  if String.eqb (typeof (get e "privateVariables")) "undefined"
  then get e "sendVariableValues"
  else if isNull (get e "privateVariables") then get e "sendVariableValues"
  else makeSendValuesBaseOptionsFromLegacy (get e "privateVariables").
Proof.
  unfold pluginOptionsOf.
  rewrite get_withLegacy_ne by done.
  rewrite get_withLegacy. rewrite get_set_prop_ne by done.
  rewrite get_withRewriteError_ne by done.
  rewrite get_withDirectOptions_same; [done | | done..].
  by apply (bool_decide_unpack _); vm_compute.
Qed.

Lemma get_pluginOptionsOf_sendHeaders e :
  get (pluginOptionsOf e) "sendHeaders" =
  if String.eqb (typeof (get e "privateHeaders")) "undefined"
  then get e "sendHeaders"
  else if isNull (get e "privateHeaders") then get e "sendHeaders"
  else makeSendValuesBaseOptionsFromLegacy (get e "privateHeaders").
Proof.
  unfold pluginOptionsOf.
  rewrite get_withLegacy.
  rewrite get_withLegacy_ne by done.
  rewrite get_set_prop_ne by done.
  rewrite get_withRewriteError_ne by done.
  rewrite get_withDirectOptions_same; [done | | done..].
  by apply (bool_decide_unpack _); vm_compute.
Qed.

Lemma get_withDirectOptions_unassigned e k :
  k ∉ canonicalNames → get (withDirectOptions e ∅) k = VUndefined.
Proof.
  intros Hk. rewrite (get_of_lookup _ ∅ _ (lookup_withDirectOptions_other _ _ _ Hk)).
  apply get_empty.
Qed.

Lemma get_pluginOptionsOf_rewriteError e :
  get (pluginOptionsOf e) "rewriteError" =
  if truthy (get e "maskErrorDetails") then VFunction FMasked
  else if truthy (get e "rewriteError") then get e "rewriteError"
  else VUndefined.
Proof.
  unfold pluginOptionsOf.
  rewrite 2!get_withLegacy_ne by done.
  rewrite get_set_prop_ne by done. rewrite get_withRewriteError.
  repeat case_match; try done.
  unfold withDirectOptions; cbn zeta; case_match; js_get; apply get_empty.
Qed.

Lemma get_pluginOptionsOf_endpointUrl e :
  get (pluginOptionsOf e) "endpointUrl" =
  coalesce (engine_get "tracesEndpointUrl") (engine_get "endpointUrl") e.
Proof.
  unfold pluginOptionsOf.
  rewrite 2!get_withLegacy_ne by done.
  rewrite get_set_prop_ne by done.
  rewrite get_withRewriteError_ne by done.
  unfold withDirectOptions; cbn zeta; case_match; by js_get.
Qed.

Lemma get_pluginOptionsOf_includeRequest e :
  get (pluginOptionsOf e) "includeRequest" =
  if String.eqb (typeof (get e "reportTiming")) "function"
  then get e "reportTiming" else VUndefined.
Proof.
  unfold pluginOptionsOf.
  rewrite 2!get_withLegacy_ne by done.
  rewrite get_set_prop_ne by done.
  rewrite get_withRewriteError_ne by done.
  unfold withDirectOptions; cbn zeta; case_match; js_get; [done|apply get_empty].
Qed.

(** ** Success and failure of a call *)

Lemma outcome_throw e msg : firstError e = Some msg → outcome e = Throw msg.
Proof. intros H. by rewrite outcome_eq, H. Qed.

Lemma outcome_normal e : firstError e = None → outcome e = Normal (pluginOptionsOf e).
Proof. intros H. by rewrite outcome_eq, H. Qed.

Lemma outcome_normal_inv e o :
  outcome e = Normal o → firstError e = None ∧ o = pluginOptionsOf e.
Proof.
  rewrite outcome_eq. destruct (firstError e); [done|]. by intros [= <-].
Qed.

Lemma makeSendValuesBaseOptionsFromLegacy_documented l :
  makeSendValuesBaseOptionsFromLegacy (privateValue l) = ruleValue (documentedRule l).
Proof. by destruct l as [names|[]]. Qed.

Lemma typeof_privateValue l : String.eqb (typeof (privateValue l)) "undefined" = false.
Proof. by destruct l. Qed.

Lemma isNull_privateValue l : isNull (privateValue l) = false.
Proof. by destruct l. Qed.

Lemma typeof_undefined_iff v :
  String.eqb (typeof v) "undefined" = true ↔ v = VUndefined.
Proof. by destruct v. Qed.


(** ** The function run on small configurations *)

Example privateVariables_true_alone :
  returns (outcome (object [("privateVariables", VBool true)]))
    (λ o, get o "sendVariableValues" = VObject [("none", VBool true)]).
Proof. vm_compute. reflexivity. Qed.

Example privateVariables_false_alone :
  returns (outcome (object [("privateVariables", VBool false)]))
    (λ o, get o "sendVariableValues" = VObject [("all", VBool true)]).
Proof. vm_compute. reflexivity. Qed.

Example only_deprecated_endpoint :
  returns (outcome (object [("endpointUrl", VString "old")]))
    (λ o, get o "endpointUrl" = VString "old").
Proof. vm_compute. reflexivity. Qed.

Example empty_configuration :
  returns (outcome ∅)
    (λ o, Forall (λ k, get o k = VUndefined) canonicalNames) ∧
  engineAfter ∅ = ∅.
Proof. split; vm_compute; [repeat constructor | reflexivity]. Qed.

(** ** Mutation of the argument *)




(** The deletion is not undone when a later test throws: with
    [maskErrorDetails: true] and both redaction options for variables,
    the call throws the error of lines 328-332 and the argument has lost
    [maskErrorDetails]. *)
Example mask_flag_deleted_before_throw :
  outcome cfgMaskThenConflict = Throw variablesMessage ∧
  get cfgMaskThenConflict "maskErrorDetails" = VBool true ∧
  get (engineAfter cfgMaskThenConflict) "maskErrorDetails" = VUndefined.
Proof. split; [|split]; vm_compute; reflexivity. Qed.

(** ** Error masking *)

(** Claim C7.  With [maskErrorDetails: true] and [rewriteError] a
    function, the call throws the error of line 312, a conflict of
    options whose message names both options. *)
Theorem mask_and_rewrite_conflict e f :
  get e "maskErrorDetails" = VBool true →
  get e "rewriteError" = VFunction f →
  outcome e = Throw maskRewriteMessage ∧
  errorKind maskRewriteMessage = Some ConflictingOptions ∧
  mentions "maskErrorDetails" maskRewriteMessage = true ∧
  mentions "rewriteError" maskRewriteMessage = true.
Proof.
  intros Hm Hr. split; [|by vm_compute].
  apply outcome_throw. unfold firstError, maskConflict. by rewrite Hm, Hr.
Qed.

Lemma mask_and_rewrite_conflict_witness :
  outcome cfgMaskAndRewrite = Throw maskRewriteMessage ∧
  errorKind maskRewriteMessage = Some ConflictingOptions ∧
  mentions "maskErrorDetails" maskRewriteMessage = true ∧
  mentions "rewriteError" maskRewriteMessage = true.
Proof.
  apply (mask_and_rewrite_conflict cfgMaskAndRewrite (FExternal 0));
    vm_compute; reflexivity.
Defined.

(** Claim C8 does not hold as stated: [rewriteError: false] is a
    non-function value, and the call returns normally, without a
    [rewriteError] in the result. *)
Lemma falsy_rewriteError_accepted :
  get cfgRewriteFalse "rewriteError" = VBool false ∧
  typeof (VBool false) ≠ "function" ∧
  returns (outcome cfgRewriteFalse) (λ o, get o "rewriteError" = VUndefined).
Proof. split; [|split]; vm_compute; try reflexivity. discriminate. Qed.

(** A falsy [rewriteError] is read by the tests of lines 311, 313 and
    318 only, each of which asks whether it is truthy: the call cannot
    tell it from a missing property. *)
Lemma firstError_delete_falsy_rewriteError e :
  truthy (get e "rewriteError") = false →
  firstError (delete_prop "rewriteError" e) = firstError e.
Proof.
  intros Hr.
  unfold firstError, maskConflict, rewriteNotFunction, variablesConflict,
    headersConflict, legacyConflict.
  rewrite get_delete_prop_eq, !get_delete_prop_ne by discriminate.
  by rewrite Hr.
Qed.

Lemma pluginOptionsOf_delete_falsy_rewriteError e :
  truthy (get e "rewriteError") = false →
  pluginOptionsOf (delete_prop "rewriteError" e) = pluginOptionsOf e.
Proof.
  intros Hr.
  unfold pluginOptionsOf, withLegacy, withRewriteError, withDirectOptions,
    coalesce, engine_get.
  rewrite get_delete_prop_eq, !get_delete_prop_ne by discriminate.
  by rewrite Hr.
Qed.

(** Claim C8, amended.  When [rewriteError] is a truthy value that is not
    a function the call throws: the error of line 314, an invalid option
    type, if [maskErrorDetails] is falsy, and the conflict error of line
    312, tested first, if [maskErrorDetails] is truthy.  A falsy
    [rewriteError] is treated as an absent one: the call completes as it
    does on the same object without the property [rewriteError], and
    what it throws, if anything, is neither of these two errors.  The
    values [null], [false], [0], [NaN] and the empty string are falsy. *)
Theorem rewriteError_checked_only_when_truthy e :
  (truthy (get e "rewriteError") = true →
   typeof (get e "rewriteError") ≠ "function" →
   outcome e =
     Throw (if truthy (get e "maskErrorDetails")
            then maskRewriteMessage else rewriteTypeMessage)) ∧
  (truthy (get e "rewriteError") = false →
   outcome e = outcome (delete_prop "rewriteError" e) ∧
   outcome e ≠ Throw rewriteTypeMessage ∧
   outcome e ≠ Throw maskRewriteMessage) ∧
  (∀ v, v ∈ [VNull; VBool false; VNumber 0; VNumber nan; VString ""] →
        truthy v = false) ∧
  errorKind rewriteTypeMessage = Some InvalidOptionType.
Proof.
  split; [|split; [|split]].
  - intros Ht Hf.
    apply outcome_throw. unfold firstError, maskConflict, rewriteNotFunction.
    rewrite Ht. destruct (truthy (get e "maskErrorDetails")); [done|].
    cbn [andb].
    destruct (String.eqb_spec (typeof (get e "rewriteError")) "function"); done.
  - intros Hr. split.
    + by rewrite !outcome_eq, firstError_delete_falsy_rewriteError,
        pluginOptionsOf_delete_falsy_rewriteError.
    + rewrite outcome_eq. unfold firstError, maskConflict, rewriteNotFunction.
      rewrite Hr, andb_false_r. cbn [andb].
      destruct (variablesConflict e); [by split; intros [=]|].
      destruct (headersConflict e); by split; intros [=].
  - intros v Hv. elim_names Hv; by vm_compute.
  - by vm_compute.
Qed.

Lemma rewriteError_checked_only_when_truthy_witness :
  outcome cfgRewriteString = Throw rewriteTypeMessage ∧
  outcome cfgRewriteFalse = outcome (delete_prop "rewriteError" cfgRewriteFalse).
Proof.
  split.
  - apply (proj1 (rewriteError_checked_only_when_truthy cfgRewriteString)).
    + vm_compute. reflexivity.
    + vm_compute. discriminate.
  - apply (proj1 (proj2 (rewriteError_checked_only_when_truthy cfgRewriteFalse))).
    vm_compute. reflexivity.
Defined.




(** ** The deprecated redaction options *)





Lemma legacyConflict_current_falsy deprecated current e :
  truthy (get e current) = false → legacyConflict deprecated current e = false.
Proof. intros Hc. unfold legacyConflict. by rewrite Hc, andb_false_r. Qed.

(** The message for the header options (lines 346-348) names
    [privateVariables] where [privateHeaders] is meant. *)
Example headersMessage_names_privateVariables :
  mentions "privateVariables" headersMessage = true ∧
  mentions "privateHeaders" headersMessage = false.
Proof. split; vm_compute; reflexivity. Qed.







(** Claim C5.  Let the deprecated option be an array of names or a
    boolean while its replacement is absent.  Whenever the call returns,
    the replacement in the result is the rule the documentation gives:
    [exceptNames] over exactly those names for an array, [none: true] for
    [true], [all: true] for [false]; and the call does return when no
    other test throws.  This holds for [privateVariables] with
    [sendVariableValues] and for [privateHeaders] with [sendHeaders]. *)
Theorem deprecated_option_alone_converted e l :
  (get e "privateVariables" = privateValue l →
   get e "sendVariableValues" = VUndefined →
   (∀ o, outcome e = Normal o →
      get o "sendVariableValues" = ruleValue (documentedRule l)) ∧
   (maskConflict e = false → rewriteNotFunction e = false →
    headersConflict e = false → ∃ o, outcome e = Normal o)) ∧
  (get e "privateHeaders" = privateValue l →
   get e "sendHeaders" = VUndefined →
   (∀ o, outcome e = Normal o →
      get o "sendHeaders" = ruleValue (documentedRule l)) ∧
   (maskConflict e = false → rewriteNotFunction e = false →
    variablesConflict e = false → ∃ o, outcome e = Normal o)).
Proof.
  split; intros Hp Hs; split.
  - intros o [_ ->]%outcome_normal_inv.
    rewrite get_pluginOptionsOf_sendVariableValues, Hp.
    by rewrite typeof_privateValue, isNull_privateValue,
      makeSendValuesBaseOptionsFromLegacy_documented.
  - intros Hm Hf Hh. eexists. apply outcome_normal.
    unfold firstError, variablesConflict.
    rewrite Hm, Hf, Hh, legacyConflict_current_falsy; [done|by rewrite Hs].
  - intros o [_ ->]%outcome_normal_inv.
    rewrite get_pluginOptionsOf_sendHeaders, Hp.
    by rewrite typeof_privateValue, isNull_privateValue,
      makeSendValuesBaseOptionsFromLegacy_documented.
  - intros Hm Hf Hv. eexists. apply outcome_normal.
    unfold firstError, headersConflict.
    rewrite Hm, Hf, Hv, legacyConflict_current_falsy; [done|by rewrite Hs].
Qed.

Lemma deprecated_option_alone_converted_witness :
  (∃ o, outcome cfgPrivateNames = Normal o) ∧
  (∀ o, outcome cfgPrivateNames = Normal o →
     get o "sendVariableValues" =
       VObject [("exceptNames", VArray [VString "a"; VString "b"])]) ∧
  (∀ o, outcome cfgPrivateNames = Normal o →
     get o "sendHeaders" = VObject [("all", VBool true)]).
Proof.
  split; [|split].
  - apply (proj1 (deprecated_option_alone_converted cfgPrivateNames
                    (PrivateNames ["a"; "b"])));
      vm_compute; reflexivity.
  - apply (proj1 (deprecated_option_alone_converted cfgPrivateNames
                    (PrivateNames ["a"; "b"])));
      vm_compute; reflexivity.
  - apply (proj2 (deprecated_option_alone_converted cfgPrivateNames
                    (PrivateBool false)));
      vm_compute; reflexivity.
Defined.

(** ** Pairs of a deprecated option and its replacement *)




(** ** Configurations without deprecated options *)

Lemma isUndefined_true v : isUndefined v = true → v = VUndefined.
Proof. by destruct v. Qed.

Lemma noDeprecated_get e k :
  noDeprecated e = true → k ∈ deprecatedNames → get e k = VUndefined.
Proof.
  unfold noDeprecated. rewrite forallb_forall. intros H Hk.
  apply isUndefined_true, H. by apply list_elem_of_In.
Qed.

(** Claim C9 does not hold as stated: a configuration that sets
    [rewriteError: "x"] and no deprecated option makes the call throw. *)
Lemma current_only_configuration_rejected :
  noDeprecated cfgRewriteString = true ∧
  outcome cfgRewriteString = Throw rewriteTypeMessage.
Proof. split; vm_compute; reflexivity. Qed.

(** A boolean [reportTiming] is not passed on either: the result has
    neither [reportTiming] nor [includeRequest]. *)
Example boolean_reportTiming_dropped :
  noDeprecated cfgBooleanTiming = true ∧
  get cfgBooleanTiming "reportTiming" = VBool true ∧
  returns (outcome cfgBooleanTiming)
    (λ o, o !! "reportTiming" = None ∧ o !! "includeRequest" = None).
Proof. split; [|split]; vm_compute; [reflexivity..|by split]. Qed.

(** Claim C9, amended.  When no deprecated option is set and
    [rewriteError] is absent or a function, the call returns, leaves its
    argument equal, and passes the current options through: every option
    assigned from the property of the same name has the value of the
    argument; [endpointUrl] is the argument's [tracesEndpointUrl], with
    [null] read as absent; [includeRequest] is the argument's
    [reportTiming] when that is a function and is absent otherwise; and
    the result has no other property. *)
Theorem current_only_configuration_passes_through e :
  noDeprecated e = true →
  (get e "rewriteError" = VUndefined ∨ ∃ f, get e "rewriteError" = VFunction f) →
  ∃ o,
    outcome e = Normal o ∧
    engineAfter e = e ∧
    (∀ k, k ∈ sameNameOptions → get o k = get e k) ∧
    get o "endpointUrl" =
      (if isNull (get e "tracesEndpointUrl") then VUndefined
       else get e "tracesEndpointUrl") ∧
    get o "includeRequest" =
      (if String.eqb (typeof (get e "reportTiming")) "function"
       then get e "reportTiming" else VUndefined) ∧
    (∀ k, k ∉ canonicalNames → o !! k = None).
Proof.
  intros Hd Hr.
  assert (get e "endpointUrl" = VUndefined) as Hurl
    by (apply noDeprecated_get; [done|by apply (bool_decide_unpack _); vm_compute]).
  assert (get e "privateVariables" = VUndefined) as Hpv
    by (apply noDeprecated_get; [done|by apply (bool_decide_unpack _); vm_compute]).
  assert (get e "privateHeaders" = VUndefined) as Hph
    by (apply noDeprecated_get; [done|by apply (bool_decide_unpack _); vm_compute]).
  assert (get e "maskErrorDetails" = VUndefined) as Hm
    by (apply noDeprecated_get; [done|by apply (bool_decide_unpack _); vm_compute]).
  assert (rewriteNotFunction e = false) as Hf.
  { unfold rewriteNotFunction. destruct Hr as [->|[f ->]]; done. }
  exists (pluginOptionsOf e). repeat split.
  - apply outcome_normal.
    unfold firstError, maskConflict, variablesConflict, headersConflict, legacyConflict.
    by rewrite Hf, Hm, Hpv, Hph.
  - rewrite engineAfter_eq. unfold engineLeft, masksErrors. by rewrite Hm.
  - intros k Hk.
    destruct (decide (k = "sendVariableValues")) as [->|Hv].
    { by rewrite get_pluginOptionsOf_sendVariableValues, Hpv. }
    destruct (decide (k = "sendHeaders")) as [->|Hh].
    { by rewrite get_pluginOptionsOf_sendHeaders, Hph. }
    destruct (decide (k = "rewriteError")) as [->|Hw].
    { rewrite get_pluginOptionsOf_rewriteError, Hm.
      by destruct Hr as [->|[f ->]]. }
    by apply get_pluginOptionsOf_same.
  - rewrite get_pluginOptionsOf_endpointUrl. unfold coalesce, engine_get.
    rewrite Hurl. by destruct (get e "tracesEndpointUrl").
  - apply get_pluginOptionsOf_includeRequest.
  - apply lookup_pluginOptionsOf_other.
Qed.

Lemma current_only_configuration_passes_through_witness :
  ∃ o,
    outcome cfgCurrentOnly = Normal o ∧
    engineAfter cfgCurrentOnly = cfgCurrentOnly ∧
    (∀ k, k ∈ sameNameOptions → get o k = get cfgCurrentOnly k) ∧
    get o "endpointUrl" = VString "new" ∧
    get o "includeRequest" = VUndefined ∧
    (∀ k, k ∉ canonicalNames → o !! k = None).
Proof.
  apply (current_only_configuration_passes_through cfgCurrentOnly).
  - vm_compute. reflexivity.
  - right. exists (FExternal 0). vm_compute. reflexivity.
Defined.

(** ** Options the function does not read *)

Section Agreement.
Variables e1 e2 : Obj.
Hypothesis agree : ∀ k, k ∈ readNames → get e1 k = get e2 k.

Local Ltac use_agree :=
  repeat match goal with
  | |- context [get e1 ?k] =>
      rewrite (agree k) by (by apply (bool_decide_unpack _); vm_compute)
  end.

Lemma firstError_agree : firstError e1 = firstError e2.
Proof.
  unfold firstError, maskConflict, rewriteNotFunction, variablesConflict,
    headersConflict, legacyConflict.
  by use_agree.
Qed.

Lemma pluginOptionsOf_agree : pluginOptionsOf e1 = pluginOptionsOf e2.
Proof.
  unfold pluginOptionsOf, withLegacy, withRewriteError, withDirectOptions,
    coalesce, engine_get.
  by use_agree.
Qed.

(** The result of a call depends on the properties in [readNames] only. *)
Lemma outcome_agree : outcome e1 = outcome e2.
Proof. by rewrite !outcome_eq, firstError_agree, pluginOptionsOf_agree. Qed.
End Agreement.

Lemma schemaReportingNames_not_read k :
  k ∈ schemaReportingNames →
  (k ∉ readNames) ∧ (k ∉ canonicalNames) ∧ k ≠ "maskErrorDetails".
Proof.
  intros Hk. unfold schemaReportingNames in Hk. elim_names Hk.
  all: split; [|split]; try discriminate.
  all: by apply (bool_decide_unpack _); vm_compute.
Qed.

(** Claim C10.  For each of the schema-reporting and logging options
    ([reportSchema], [overrideReportedSchema],
    [schemaReportingInitialDelayMaxMs], [schemaReportingUrl], [logger]
    and the three [experimental_] aliases): setting it to any value, or
    deleting it, does not change how the call completes, so the call
    does not read it; the call leaves it as it is in the argument; and
    the returned object does not have it. *)
Theorem schema_reporting_options_ignored e k v :
  k ∈ schemaReportingNames →
  outcome (set_prop k v e) = outcome e ∧
  outcome (delete_prop k e) = outcome e ∧
  engineAfter e !! k = e !! k ∧
  (∀ o, outcome e = Normal o → o !! k = None).
Proof.
  intros Hk.
  apply schemaReportingNames_not_read in Hk as (Hread & Hcanon & Hmask).
  repeat split.
  - apply outcome_agree. intros k' Hk'.
    apply get_set_prop_ne. by intros ->.
  - apply outcome_agree. intros k' Hk'.
    apply get_delete_prop_ne. by intros ->.
  - rewrite engineAfter_eq. unfold engineLeft. case_match; [|done].
    by apply lookup_delete_prop_ne.
  - intros o [_ ->]%outcome_normal_inv. by apply lookup_pluginOptionsOf_other.
Qed.

Lemma schema_reporting_options_ignored_witness :
  outcome (set_prop "logger" (VObject []) cfgCurrentOnly) = outcome cfgCurrentOnly ∧
  outcome (delete_prop "logger" cfgWithLogger) = outcome cfgWithLogger ∧
  engineAfter cfgWithLogger !! "logger" = cfgWithLogger !! "logger" ∧
  (∀ o, outcome cfgWithLogger = Normal o → o !! "logger" = None).
Proof.
  split; [|split].
  - apply (schema_reporting_options_ignored cfgCurrentOnly "logger" (VObject [])).
    by apply (bool_decide_unpack _); vm_compute.
  - apply (schema_reporting_options_ignored cfgWithLogger "logger" VNull).
    by apply (bool_decide_unpack _); vm_compute.
  - apply (schema_reporting_options_ignored cfgWithLogger "logger" VNull).
    by apply (bool_decide_unpack _); vm_compute.
Defined.

(** * Further properties of [legacyOptionsToPluginOptions] *)

(** ** Which calls return, and what a call can throw *)

Lemma nonConfigurable_elem_of fixed k :
  nonConfigurable fixed k = true ↔ k ∈ fixed.
Proof.
  unfold nonConfigurable. rewrite existsb_exists. split.
  - by intros (x & Hx%list_elem_of_In & ->%String.eqb_eq).
  - intros Hk. exists k. split; [by apply list_elem_of_In | apply String.eqb_refl].
Qed.

(** On a sealed or frozen object the non-configurable properties are
    the own properties. *)
Lemma nonConfigurable_ownNames e k :
  nonConfigurable (ownNames e) k = isOwn e k.
Proof.
  apply eq_true_iff_eq. rewrite nonConfigurable_elem_of.
  unfold ownNames, isOwn. rewrite list_elem_of_fmap. split.
  - intros ([k' v] & -> & Hv%elem_of_map_to_list). cbn. by rewrite Hv.
  - destruct (e !! k) as [v|] eqn:Hv; [|done]. intros _.
    exists (k, v). split; [done|]. by apply elem_of_map_to_list.
Qed.

Lemma outcomeOn_eq fixed e :
  outcomeOn fixed e =
    if deleteThrows fixed e then ThrowTypeError
    else match firstError e with
         | Some msg => Throw msg
         | None => Normal (pluginOptionsOf e)
         end.
Proof.
  unfold outcomeOn. rewrite legacyOptionsToPluginOptionsOn_eq.
  by destruct (deleteThrows fixed e).
Qed.

Lemma engineAfterOn_eq fixed e :
  engineAfterOn fixed e = if deleteThrows fixed e then e else engineLeft e.
Proof.
  unfold engineAfterOn. rewrite legacyOptionsToPluginOptionsOn_eq.
  by destruct (deleteThrows fixed e).
Qed.

(** Property X1.  On an object with data properties, of which those in
    [fixed] are not configurable, the call returns exactly when none of
    the four tests that guard a [throw] holds and the [delete] of line
    317 does not throw. *)
Theorem call_returns_iff fixed e :
  (∃ o, outcomeOn fixed e = Normal o) ↔
  maskConflict e = false ∧ rewriteNotFunction e = false ∧
  variablesConflict e = false ∧ headersConflict e = false ∧
  deleteThrows fixed e = false.
Proof.
  rewrite outcomeOn_eq. unfold firstError. split.
  - intros [o Ho]. by repeat case_match.
  - intros (-> & -> & -> & -> & ->). by eexists.
Qed.

(** Property X2.  Besides its four [throw] statements the call fails in
    one more way: the [delete] of line 317 throws a [TypeError] exactly
    when [maskErrorDetails] is truthy, [rewriteError] is falsy and
    [maskErrorDetails] is not configurable.  The argument is then left
    as it was, and the redaction options are not looked at.  A call
    that does not end this way does what it does on an ordinary object.
    On a sealed or frozen object, all of whose properties are fixed,
    the [TypeError] is thrown exactly when the masking branch is taken. *)
Theorem delete_of_fixed_mask_flag_throws fixed e :
  (outcomeOn fixed e = ThrowTypeError ↔
     truthy (get e "maskErrorDetails") = true ∧
     truthy (get e "rewriteError") = false ∧
     "maskErrorDetails" ∈ fixed) ∧
  (outcomeOn fixed e = ThrowTypeError → engineAfterOn fixed e = e) ∧
  (outcomeOn fixed e ≠ ThrowTypeError →
     legacyOptionsToPluginOptionsOn fixed e = legacyOptionsToPluginOptions e) ∧
  (outcomeOn (ownNames e) e = ThrowTypeError ↔ masksErrors e = true).
Proof.
  assert (Hiff : ∀ f, outcomeOn f e = ThrowTypeError ↔ deleteThrows f e = true).
  { intros f. rewrite outcomeOn_eq. destruct (deleteThrows f e); [done|].
    split; [|done]. by destruct (firstError e). }
  split; [|split; [|split]].
  - rewrite Hiff. unfold deleteThrows, masksErrors.
    rewrite !andb_true_iff, negb_true_iff, nonConfigurable_elem_of. tauto.
  - rewrite Hiff, engineAfterOn_eq. by intros ->.
  - rewrite Hiff. intros Hd%not_true_is_false.
    by rewrite legacyOptionsToPluginOptionsOn_eq, Hd, legacyOptionsToPluginOptions_eq.
  - rewrite Hiff. unfold deleteThrows. rewrite nonConfigurable_ownNames.
    rewrite andb_true_iff. split; [tauto|]. intros Hm. split; [done|].
    apply truthy_get_isOwn. unfold masksErrors in Hm.
    by apply andb_true_iff in Hm as [? _].
Qed.

Lemma delete_of_fixed_mask_flag_throws_witness :
  outcomeOn ["maskErrorDetails"] cfgMaskThenConflict = ThrowTypeError ∧
  engineAfterOn (ownNames cfgMaskOnly) cfgMaskOnly = cfgMaskOnly ∧
  legacyOptionsToPluginOptionsOn (ownNames cfgMaskAndRewrite) cfgMaskAndRewrite =
    legacyOptionsToPluginOptions cfgMaskAndRewrite.
Proof.
  split; [|split].
  - apply (proj2 (proj1 (delete_of_fixed_mask_flag_throws
                           ["maskErrorDetails"] cfgMaskThenConflict))).
    split; [|split]; [vm_compute; reflexivity | vm_compute; reflexivity |].
    by apply (bool_decide_unpack _); vm_compute.
  - apply (proj1 (proj2 (delete_of_fixed_mask_flag_throws
                           (ownNames cfgMaskOnly) cfgMaskOnly))).
    vm_compute. reflexivity.
  - apply (proj1 (proj2 (proj2 (delete_of_fixed_mask_flag_throws
                                  (ownNames cfgMaskAndRewrite) cfgMaskAndRewrite)))).
    vm_compute. discriminate.
Defined.

(** The frozen object [{maskErrorDetails: true}], run: the call throws
    the [TypeError] and the object keeps its flag, where the same call
    on the ordinary object returns and deletes it. *)
Example frozen_mask_flag :
  legacyOptionsToPluginOptionsOn (ownNames cfgMaskOnly) cfgMaskOnly =
    (ThrowTypeError, cfgMaskOnly) ∧
  returns (outcome cfgMaskOnly) (λ o, get o "rewriteError" = VFunction FMasked) ∧
  engineAfter cfgMaskOnly = ∅.
Proof. split; [|split]; vm_compute; reflexivity. Qed.



Lemma firstError_set_prop_other e k v :
  k ∉ validatedNames → firstError (set_prop k v e) = firstError e.
Proof.
  intros Hk. unfold validatedNames in Hk. split_names Hk.
  unfold firstError, maskConflict, rewriteNotFunction, variablesConflict,
    headersConflict, legacyConflict.
  by rewrite !get_set_prop_ne.
Qed.

(** Property X4.  Only six options are validated.  Setting any other option, to any
    value whatever, changes neither whether the call throws nor what it
    throws. *)
Theorem only_six_options_validated e k v msg :
  k ∉ validatedNames →
  outcome (set_prop k v e) = Throw msg ↔ outcome e = Throw msg.
Proof.
  intros Hk. rewrite !outcome_eq, firstError_set_prop_other by done.
  destruct (firstError e); [done|]. by split.
Qed.

Lemma only_six_options_validated_witness :
  outcome (set_prop "reportIntervalMs" (VString "soon") cfgBothVariables)
    = Throw variablesMessage ↔
  outcome cfgBothVariables = Throw variablesMessage.
Proof.
  apply (only_six_options_validated cfgBothVariables).
  by apply (bool_decide_unpack _); vm_compute.
Defined.

(** ** The properties of the returned object, as own properties *)

Lemma lookup_set_prop_eq k v (o : Obj) : set_prop k v o !! k = Some v.
Proof. unfold set_prop. by rewrite lookup_insert_eq. Qed.

Lemma get_of_lookup_Some (o : Obj) k v : o !! k = Some v → get o k = v.
Proof. unfold get. by intros ->. Qed.

Lemma get_of_lookup_None (o : Obj) k : o !! k = None → get o k = VUndefined.
Proof. unfold get. by intros ->. Qed.

Lemma lookup_of_get (o : Obj) k : is_Some (o !! k) → o !! k = Some (get o k).
Proof. unfold get. by intros [v ->]. Qed.

Lemma is_Some_set_prop k k' v (o : Obj) :
  is_Some (o !! k') → is_Some (set_prop k v o !! k').
Proof.
  intros Hs. destruct (decide (k = k')) as [->|Hne].
  - rewrite lookup_set_prop_eq. by eexists.
  - by rewrite lookup_set_prop_ne.
Qed.

Lemma is_Some_withLegacy deprecated current e p k :
  is_Some (p !! k) → is_Some (withLegacy deprecated current e p !! k).
Proof. intros Hs. unfold withLegacy. repeat case_match; auto using is_Some_set_prop. Qed.

Lemma is_Some_withRewriteError e p k :
  is_Some (p !! k) → is_Some (withRewriteError e p !! k).
Proof. intros Hs. unfold withRewriteError. repeat case_match; auto using is_Some_set_prop. Qed.

Ltac js_lookup :=
  repeat first
    [ rewrite lookup_set_prop_eq
    | rewrite lookup_set_prop_ne by discriminate ].

Lemma is_Some_withDirectOptions e p k :
  k ∈ alwaysAssigned → k ≠ "generateClientInfo" →
  is_Some (withDirectOptions e p !! k).
Proof.
  intros Hk Hg. unfold alwaysAssigned in Hk. elim_names Hk; try done.
  all: unfold withDirectOptions; cbn zeta; case_match; js_lookup; by eexists.
Qed.

Lemma is_Some_pluginOptionsOf e k :
  k ∈ alwaysAssigned → is_Some (pluginOptionsOf e !! k).
Proof.
  intros Hk. unfold pluginOptionsOf.
  do 2 apply is_Some_withLegacy.
  destruct (decide (k = "generateClientInfo")) as [->|Hg].
  { rewrite lookup_set_prop_eq. by eexists. }
  apply is_Some_set_prop, is_Some_withRewriteError.
  by apply is_Some_withDirectOptions.
Qed.

Lemma lookup_pluginOptionsOf_includeRequest e :
  pluginOptionsOf e !! "includeRequest" =
  if String.eqb (typeof (get e "reportTiming")) "function"
  then Some (get e "reportTiming") else None.
Proof.
  unfold pluginOptionsOf.
  rewrite !lookup_withLegacy_ne, lookup_set_prop_ne, lookup_withRewriteError_ne by done.
  unfold withDirectOptions; cbn zeta; case_match; by js_lookup.
Qed.

Lemma lookup_pluginOptionsOf_rewriteError e :
  pluginOptionsOf e !! "rewriteError" =
  if truthy (get e "maskErrorDetails") then Some (VFunction FMasked)
  else if truthy (get e "rewriteError") then Some (get e "rewriteError")
  else None.
Proof.
  unfold pluginOptionsOf.
  rewrite !lookup_withLegacy_ne, lookup_set_prop_ne by done.
  unfold withRewriteError. repeat case_match; rewrite ?lookup_set_prop_eq; try done.
  unfold withDirectOptions; cbn zeta; case_match; by js_lookup.
Qed.

Lemma typeof_function v :
  String.eqb (typeof v) "function" = true → ∃ f, v = VFunction f.
Proof. destruct v; try discriminate. by eexists. Qed.

(** Property X5.  Every option in [directNames] is copied as it is: the result has it
    as an own property whose value is the value read from the argument,
    be it [undefined] or a value of the wrong type.  Nothing checks or
    defaults these options. *)
Theorem direct_options_copied e o k :
  outcome e = Normal o → k ∈ directNames → o !! k = Some (get e k).
Proof.
  intros [_ ->]%outcome_normal_inv Hk.
  unfold directNames in Hk. elim_names Hk.
  all: rewrite lookup_of_get
    by (apply is_Some_pluginOptionsOf; by apply (bool_decide_unpack _); vm_compute).
  all: f_equal; apply get_pluginOptionsOf_same; try discriminate.
  all: by apply (bool_decide_unpack _); vm_compute.
Qed.

Lemma direct_options_copied_witness :
  pluginOptionsOf cfgUnvalidated !! "reportIntervalMs" = Some (VString "soon") ∧
  pluginOptionsOf cfgUnvalidated !! "maxAttempts" = Some VNull ∧
  pluginOptionsOf cfgUnvalidated !! "requestAgent" = Some VUndefined.
Proof.
  assert (outcome cfgUnvalidated = Normal (pluginOptionsOf cfgUnvalidated)) as Ho.
  { apply outcome_normal. vm_compute. reflexivity. }
  split; [|split].
  - rewrite (direct_options_copied cfgUnvalidated _ "reportIntervalMs" Ho).
    + vm_compute. reflexivity.
    + by apply (bool_decide_unpack _); vm_compute.
  - rewrite (direct_options_copied cfgUnvalidated _ "maxAttempts" Ho).
    + vm_compute. reflexivity.
    + by apply (bool_decide_unpack _); vm_compute.
  - rewrite (direct_options_copied cfgUnvalidated _ "requestAgent" Ho).
    + vm_compute. reflexivity.
    + by apply (bool_decide_unpack _); vm_compute.
Defined.

(** Property X6.  The returned object has every property of
    [alwaysAssigned] as an own property, even when nothing was
    configured and the value is [undefined], and it has no property
    outside [canonicalNames].  Of the deprecated names it has
    [endpointUrl], which is also the name the endpoint has in the
    result, and no other. *)
Theorem result_own_properties e o :
  outcome e = Normal o →
  (∀ k, k ∈ alwaysAssigned → is_Some (o !! k)) ∧
  (∀ k, k ∉ canonicalNames → o !! k = None) ∧
  (∀ k, k ∈ deprecatedNames → (is_Some (o !! k) ↔ k = "endpointUrl")).
Proof.
  intros [_ ->]%outcome_normal_inv. split; [|split].
  - apply is_Some_pluginOptionsOf.
  - apply lookup_pluginOptionsOf_other.
  - intros k Hk. unfold deprecatedNames in Hk. elim_names Hk.
    1: { split; [done|]. intros _. apply is_Some_pluginOptionsOf.
         by apply (bool_decide_unpack _); vm_compute. }
    all: rewrite lookup_pluginOptionsOf_other
      by (by apply (bool_decide_unpack _); vm_compute).
    all: split; [by intros [? ?] | done].
Qed.

Lemma result_own_properties_witness :
  is_Some (pluginOptionsOf ∅ !! "reportIntervalMs") ∧
  pluginOptionsOf cfgMaskOnly !! "maskErrorDetails" = None ∧
  is_Some (pluginOptionsOf cfgPrivateNames !! "endpointUrl") ∧
  ¬ is_Some (pluginOptionsOf cfgPrivateNames !! "privateVariables").
Proof.
  split; [|split; [|split]].
  - apply (proj1 (result_own_properties ∅ (pluginOptionsOf ∅)
                    ltac:(apply outcome_normal; vm_compute; reflexivity))).
    by apply (bool_decide_unpack _); vm_compute.
  - apply (proj1 (proj2 (result_own_properties cfgMaskOnly (pluginOptionsOf cfgMaskOnly)
                    ltac:(apply outcome_normal; vm_compute; reflexivity)))).
    by apply (bool_decide_unpack _); vm_compute.
  - apply (proj2 (result_own_properties cfgPrivateNames (pluginOptionsOf cfgPrivateNames)
                    ltac:(apply outcome_normal; vm_compute; reflexivity))).
    + by apply (bool_decide_unpack _); vm_compute.
    + reflexivity.
  - intros Hs.
    apply (proj2 (result_own_properties cfgPrivateNames (pluginOptionsOf cfgPrivateNames)
                    ltac:(apply outcome_normal; vm_compute; reflexivity))) in Hs.
    + discriminate.
    + by apply (bool_decide_unpack _); vm_compute.
Defined.

(** ** Single options *)

(** Property X7.  The endpoint is chosen by [??], not by truthiness: [endpointUrl] of
    the result is [tracesEndpointUrl] unless that is [undefined] or
    [null], and only then the deprecated [endpointUrl].  An empty string
    in [tracesEndpointUrl] is therefore kept and hides [endpointUrl]. *)
Theorem endpointUrl_resolution e o :
  outcome e = Normal o →
  get o "endpointUrl" =
    if isUndefined (get e "tracesEndpointUrl") || isNull (get e "tracesEndpointUrl")
    then get e "endpointUrl"
    else get e "tracesEndpointUrl".
Proof.
  intros [_ ->]%outcome_normal_inv.
  rewrite get_pluginOptionsOf_endpointUrl. unfold coalesce, engine_get.
  by destruct (get e "tracesEndpointUrl").
Qed.

Lemma endpointUrl_resolution_witness :
  get (pluginOptionsOf cfgEmptyTraces) "endpointUrl" = VString "" ∧
  get (pluginOptionsOf cfgOldEndpoint) "endpointUrl" = VString "old".
Proof.
  split.
  - rewrite (endpointUrl_resolution cfgEmptyTraces).
    + vm_compute. reflexivity.
    + apply outcome_normal. vm_compute. reflexivity.
  - rewrite (endpointUrl_resolution cfgOldEndpoint).
    + vm_compute. reflexivity.
    + apply outcome_normal. vm_compute. reflexivity.
Defined.

(** Property X8.  [reportTiming] is passed on as [includeRequest] exactly when it is a
    function.  For any other value, a boolean included, the result has
    no [includeRequest] property at all, and [reportTiming] itself never
    appears in the result. *)
Theorem reportTiming_becomes_includeRequest e o :
  outcome e = Normal o →
  o !! "includeRequest" =
    (if String.eqb (typeof (get e "reportTiming")) "function"
     then Some (get e "reportTiming") else None) ∧
  o !! "reportTiming" = None.
Proof.
  intros [_ ->]%outcome_normal_inv. split.
  - apply lookup_pluginOptionsOf_includeRequest.
  - apply lookup_pluginOptionsOf_other.
    by apply (bool_decide_unpack _); vm_compute.
Qed.

Lemma reportTiming_becomes_includeRequest_witness :
  pluginOptionsOf cfgTimingFunction !! "includeRequest" = Some (VFunction (FExternal 1)) ∧
  pluginOptionsOf cfgBooleanTiming !! "includeRequest" = None.
Proof.
  split.
  - rewrite (proj1 (reportTiming_becomes_includeRequest cfgTimingFunction _
                      (outcome_normal cfgTimingFunction
                         ltac:(vm_compute; reflexivity)))).
    vm_compute. reflexivity.
  - rewrite (proj1 (reportTiming_becomes_includeRequest cfgBooleanTiming _
                      (outcome_normal cfgBooleanTiming
                         ltac:(vm_compute; reflexivity)))).
    vm_compute. reflexivity.
Defined.

(** Property X9.  Whenever the call returns, [rewriteError] of the result is absent or
    a function, never a value of another type; and a function given as
    [rewriteError] while [maskErrorDetails] is falsy (for instance
    [false]) passes both tests of the error-masking options and is
    returned unchanged. *)
Theorem rewriteError_absent_or_function e o :
  outcome e = Normal o →
  (o !! "rewriteError" = None ∨ ∃ f, o !! "rewriteError" = Some (VFunction f)) ∧
  (∀ f, truthy (get e "maskErrorDetails") = false →
        get e "rewriteError" = VFunction f →
        o !! "rewriteError" = Some (VFunction f)).
Proof.
  intros [He ->]%outcome_normal_inv.
  rewrite lookup_pluginOptionsOf_rewriteError. split.
  - destruct (truthy (get e "maskErrorDetails")) eqn:Hm; [right; by eexists|].
    destruct (truthy (get e "rewriteError")) eqn:Hr; [|by left].
    right. unfold firstError, maskConflict, rewriteNotFunction in He.
    rewrite Hm, Hr in He. cbn [andb] in He.
    destruct (String.eqb (typeof (get e "rewriteError")) "function") eqn:Hf;
      [|done].
    apply typeof_function in Hf as [f ->]. by eexists.
  - intros f -> Hr. by rewrite Hr.
Qed.

Lemma rewriteError_absent_or_function_witness :
  (pluginOptionsOf cfgFlagFalse !! "rewriteError" = None ∨
   ∃ f, pluginOptionsOf cfgFlagFalse !! "rewriteError" = Some (VFunction f)) ∧
  pluginOptionsOf cfgFlagFalse !! "rewriteError" = Some userRewrite.
Proof.
  assert (outcome cfgFlagFalse = Normal (pluginOptionsOf cfgFlagFalse)) as Ho.
  { apply outcome_normal. vm_compute. reflexivity. }
  split.
  - apply (rewriteError_absent_or_function cfgFlagFalse _ Ho).
  - apply (rewriteError_absent_or_function cfgFlagFalse _ Ho);
      vm_compute; reflexivity.
Defined.

(** Property X10.  When the deprecated option of a redaction pair is absent, the
    replacement is returned as it was given, whatever its value; when
    both are absent the result holds [undefined]. *)
Theorem absent_deprecated_option_keeps_replacement e o :
  outcome e = Normal o →
  (get e "privateVariables" = VUndefined →
     o !! "sendVariableValues" = Some (get e "sendVariableValues")) ∧
  (get e "privateHeaders" = VUndefined →
     o !! "sendHeaders" = Some (get e "sendHeaders")).
Proof.
  intros [_ ->]%outcome_normal_inv. split; intros Hp.
  - rewrite lookup_of_get
      by (apply is_Some_pluginOptionsOf; by apply (bool_decide_unpack _); vm_compute).
    by rewrite get_pluginOptionsOf_sendVariableValues, Hp.
  - rewrite lookup_of_get
      by (apply is_Some_pluginOptionsOf; by apply (bool_decide_unpack _); vm_compute).
    by rewrite get_pluginOptionsOf_sendHeaders, Hp.
Qed.

Lemma absent_deprecated_option_keeps_replacement_witness :
  pluginOptionsOf cfgUnvalidated !! "sendVariableValues" = Some (VNumber 1%float) ∧
  pluginOptionsOf cfgUnvalidated !! "sendHeaders" = Some VUndefined.
Proof.
  assert (outcome cfgUnvalidated = Normal (pluginOptionsOf cfgUnvalidated)) as Ho.
  { apply outcome_normal. vm_compute. reflexivity. }
  split.
  - rewrite (proj1 (absent_deprecated_option_keeps_replacement _ _ Ho))
      by (vm_compute; reflexivity).
    vm_compute. reflexivity.
  - rewrite (proj2 (absent_deprecated_option_keeps_replacement _ _ Ho))
      by (vm_compute; reflexivity).
    vm_compute. reflexivity.
Defined.

(** ** [makeSendValuesBaseOptionsFromLegacy] *)

Lemma fmap_VString_inj (l1 l2 : list string) :
  VString <$> l1 = VString <$> l2 → l1 = l2.
Proof.
  revert l2. induction l1 as [|x l1 IH]; intros [|y l2]; try done.
  cbn. intros [= -> Hl]. f_equal. by apply IH.
Qed.

(** Property X11.  On the values its type admits, an array of names or a boolean, the
    conversion loses nothing: different deprecated values give different
    rules. *)
Theorem makeSendValuesBaseOptionsFromLegacy_injective l1 l2 :
  l1 ≠ l2 →
  makeSendValuesBaseOptionsFromLegacy (privateValue l1) ≠
  makeSendValuesBaseOptionsFromLegacy (privateValue l2).
Proof.
  intros Hne Heq. apply Hne.
  destruct l1 as [n1|[]], l2 as [n2|[]]; try done.
  unfold makeSendValuesBaseOptionsFromLegacy in Heq. cbn in Heq.
  injection Heq as Heq. f_equal. by apply fmap_VString_inj.
Qed.

Lemma makeSendValuesBaseOptionsFromLegacy_injective_witness :
  makeSendValuesBaseOptionsFromLegacy (privateValue (PrivateNames [])) ≠
  makeSendValuesBaseOptionsFromLegacy (privateValue (PrivateBool false)).
Proof.
  apply (makeSendValuesBaseOptionsFromLegacy_injective
           (PrivateNames []) (PrivateBool false)).
  discriminate.
Defined.

Lemma rewriteError_known e o :
  outcome e = Normal o →
  (get o "rewriteError" = VUndefined ∨ ∃ f, get o "rewriteError" = VFunction f) ∧
  rewriteNotFunction o = false.
Proof.
  intros [He ->]%outcome_normal_inv. unfold rewriteNotFunction at 1.
  rewrite get_pluginOptionsOf_rewriteError.
  destruct (truthy (get e "maskErrorDetails")) eqn:Hm.
  { split; [right; by eexists|done]. }
  destruct (truthy (get e "rewriteError")) eqn:Hr; [|by split; [left|]].
  unfold firstError, maskConflict, rewriteNotFunction in He.
  rewrite Hm, Hr in He. cbn [andb] in He.
  destruct (String.eqb (typeof (get e "rewriteError")) "function") eqn:Hf; [|done].
  apply typeof_function in Hf as [f ->]. split; [right; by eexists|done].
Qed.

(** ** Calling the function again *)

Lemma masksErrors_engineLeft e : masksErrors (engineLeft e) = false.
Proof.
  unfold engineLeft. destruct (masksErrors e) eqn:Hm; [|done].
  unfold masksErrors. by rewrite get_delete_prop_eq.
Qed.

Lemma firstError_engineLeft e : firstError (engineLeft e) = firstError e.
Proof.
  unfold engineLeft. destruct (masksErrors e) eqn:Hm; [|done].
  unfold masksErrors in Hm.
  apply andb_true_iff in Hm as [Hm Hr%negb_true_iff].
  unfold firstError, maskConflict, rewriteNotFunction, variablesConflict,
    headersConflict, legacyConflict.
  rewrite get_delete_prop_eq, !get_delete_prop_ne by done.
  by rewrite Hr, !andb_false_r.
Qed.

(** Property X12.  A second call on the same object.  The first call may have deleted
    [maskErrorDetails]; the second call then completes as the first did
    as far as errors go and changes the object no further, but its
    result has no [rewriteError]: the masking function installed by the
    first call is not installed again. *)
Theorem second_call_on_same_object e :
  engineAfter (engineAfter e) = engineAfter e ∧
  (∀ msg, outcome (engineAfter e) = Throw msg ↔ outcome e = Throw msg) ∧
  (masksErrors e = true →
   ∀ o o', outcome e = Normal o → outcome (engineAfter e) = Normal o' →
     o !! "rewriteError" = Some (VFunction FMasked) ∧ o' !! "rewriteError" = None).
Proof.
  rewrite !engineAfter_eq. split; [|split].
  - unfold engineLeft at 1. by rewrite masksErrors_engineLeft.
  - intros msg. rewrite !outcome_eq, firstError_engineLeft.
    destruct (firstError e); [done|]. by split.
  - intros Hm o o' [_ ->]%outcome_normal_inv [_ ->]%outcome_normal_inv.
    rewrite !lookup_pluginOptionsOf_rewriteError.
    unfold engineLeft. rewrite Hm. unfold masksErrors in Hm.
    apply andb_true_iff in Hm as [Hm Hr%negb_true_iff].
    rewrite Hm, get_delete_prop_eq, get_delete_prop_ne, Hr by done. done.
Qed.

Lemma second_call_on_same_object_witness :
  pluginOptionsOf cfgMaskOnly !! "rewriteError" = Some (VFunction FMasked) ∧
  pluginOptionsOf (engineAfter cfgMaskOnly) !! "rewriteError" = None.
Proof.
  apply (proj2 (proj2 (second_call_on_same_object cfgMaskOnly))).
  - vm_compute. reflexivity.
  - apply outcome_normal. vm_compute. reflexivity.
  - apply outcome_normal. vm_compute. reflexivity.
Defined.

(** Property X13.  Passing the returned object to the function again.  The second call
    never throws and changes nothing in the object it is given; its
    result agrees with the first result on every property except
    [includeRequest], which is lost, because the function looks for it
    under the name [reportTiming]. *)
Theorem result_passed_again e o :
  outcome e = Normal o →
  ∃ o',
    outcome o = Normal o' ∧
    engineAfter o = o ∧
    (∀ k, k ≠ "includeRequest" → get o' k = get o k) ∧
    o' !! "includeRequest" = None.
Proof.
  intros Ho.
  destruct (rewriteError_known e o Ho) as [Hrw Hrwf].
  apply outcome_normal_inv in Ho as [_ ->].
  set (o := pluginOptionsOf e) in *.
  assert (∀ k, k ∉ canonicalNames → get o k = VUndefined) as Hout.
  { intros k Hk. by apply get_of_lookup_None, lookup_pluginOptionsOf_other. }
  assert (get o "maskErrorDetails" = VUndefined) as Hm
    by (apply Hout; by apply (bool_decide_unpack _); vm_compute).
  assert (get o "privateVariables" = VUndefined) as Hpv
    by (apply Hout; by apply (bool_decide_unpack _); vm_compute).
  assert (get o "privateHeaders" = VUndefined) as Hph
    by (apply Hout; by apply (bool_decide_unpack _); vm_compute).
  assert (get o "tracesEndpointUrl" = VUndefined) as Ht
    by (apply Hout; by apply (bool_decide_unpack _); vm_compute).
  assert (get o "reportTiming" = VUndefined) as Hrt
    by (apply Hout; by apply (bool_decide_unpack _); vm_compute).
  exists (pluginOptionsOf o). split; [|split; [|split]].
  - apply outcome_normal.
    unfold firstError, maskConflict, variablesConflict, headersConflict,
      legacyConflict.
    by rewrite Hrwf, Hm, Hpv, Hph.
  - rewrite engineAfter_eq. unfold engineLeft, masksErrors. by rewrite Hm.
  - intros k Hk.
    destruct (decide (k ∈ canonicalNames)) as [Hin|Hnotin].
    + unfold canonicalNames in Hin. elim_names Hin; try done.
      all: try (apply get_pluginOptionsOf_same;
                [by apply (bool_decide_unpack _); vm_compute | discriminate..]).
      * rewrite get_pluginOptionsOf_endpointUrl. unfold coalesce, engine_get.
        by rewrite Ht.
      * by rewrite get_pluginOptionsOf_sendVariableValues, Hpv.
      * by rewrite get_pluginOptionsOf_sendHeaders, Hph.
      * rewrite get_pluginOptionsOf_rewriteError, Hm. cbn.
        destruct (truthy (get o "rewriteError")) eqn:Htr; [done|].
        destruct Hrw as [->|[f Hf]]; [done|]. by rewrite Hf in Htr.
    + rewrite (Hout k Hnotin).
      by apply get_of_lookup_None, lookup_pluginOptionsOf_other.
  - by rewrite lookup_pluginOptionsOf_includeRequest, Hrt.
Qed.

Lemma result_passed_again_witness :
  ∃ o',
    outcome (pluginOptionsOf cfgTimingFunction) = Normal o' ∧
    engineAfter (pluginOptionsOf cfgTimingFunction) = pluginOptionsOf cfgTimingFunction ∧
    (∀ k, k ≠ "includeRequest" → get o' k = get (pluginOptionsOf cfgTimingFunction) k) ∧
    o' !! "includeRequest" = None.
Proof.
  apply (result_passed_again cfgTimingFunction).
  apply outcome_normal. vm_compute. reflexivity.
Defined.

(** ** Options the function leaves to other code *)

Lemma masksErrors_set_prop_other e k v :
  k ∉ readNames → masksErrors (set_prop k v e) = masksErrors e.
Proof.
  intros Hk. unfold readNames in Hk. split_names Hk.
  unfold masksErrors. by rewrite !get_set_prop_ne.
Qed.

(** Property X14.  The function reads nineteen properties of its argument and no other.
    Setting any other property ([apiKey], [schemaTag], [graphVariant] and
    [handleSignals], which the comment of lines 289-290 leaves to other
    code, among them) changes neither the result nor the error, and the
    property is still there, with its value, after the call. *)
Theorem unread_option_ignored e k v :
  k ∉ readNames →
  outcome (set_prop k v e) = outcome e ∧
  engineAfter (set_prop k v e) = set_prop k v (engineAfter e).
Proof.
  intros Hk. split.
  - apply outcome_agree. intros k' Hk'.
    apply get_set_prop_ne. by intros ->.
  - rewrite !engineAfter_eq. unfold engineLeft.
    rewrite masksErrors_set_prop_other by done.
    case_match; [|done].
    unfold delete_prop, set_prop. apply delete_insert_ne.
    intros <-. apply Hk. by apply (bool_decide_unpack _); vm_compute.
Qed.

Lemma unread_option_ignored_witness :
  outcome (set_prop "apiKey" (VString "service:key") cfgMaskOnly) = outcome cfgMaskOnly ∧
  engineAfter (set_prop "apiKey" (VString "service:key") cfgMaskOnly) =
    set_prop "apiKey" (VString "service:key") (engineAfter cfgMaskOnly).
Proof.
  apply (unread_option_ignored cfgMaskOnly "apiKey" (VString "service:key")).
  by apply (bool_decide_unpack _); vm_compute.
Defined.

(** * Properties of the inventory fixture *)

Section InventoryLookup.
Import Inventory.

Lemma strictEq_Some_true s v : strictEq (Some s) v = true ↔ v = VString s.
Proof.
  destruct v; cbn; try (split; [discriminate|done]).
  rewrite String.eqb_eq. split; [by intros ->|by intros [= ->]].
Qed.

Lemma strictEq_None_true v : strictEq None v = true ↔ v = VUndefined.
Proof. by destruct v. Qed.

Lemma find_inventory_Some (f : Product → bool) p :
  List.find f inventory = Some p → p ∈ inventory ∧ f p = true.
Proof. intros [Hin Hf]%find_some. split; [by apply list_elem_of_In|done]. Qed.

(** Property X15.  Looking an entry up by a string key gives exactly the entry of the
    table that carries this key: [Furniture.__resolveReference] by
    [sku], [Book.__resolveReference] by [isbn].  No two entries share a
    key, so [find] cannot stop at another one; and a key that is not in
    the table gives [undefined]. *)
Theorem resolveReference_by_key object s p :
  (get object "sku" = VString s →
     Furniture_resolveReference object = Some p ↔ p ∈ inventory ∧ sku p = Some s) ∧
  (get object "isbn" = VString s →
     Book_resolveReference object = Some p ↔ p ∈ inventory ∧ isbn p = Some s).
Proof.
  unfold Furniture_resolveReference, Book_resolveReference.
  split; intros ->; split.
  - intros [Hin Hf]%find_inventory_Some. split; [done|].
    destruct (sku p) as [s'|]; [|done]. by apply strictEq_Some_true in Hf as [= ->].
  - intros [Hin Hs]. unfold inventory in Hin.
    elim_names Hin; cbn in Hs; try done; by injection Hs as <-.
  - intros [Hin Hf]%find_inventory_Some. split; [done|].
    destruct (isbn p) as [s'|]; [|done]. by apply strictEq_Some_true in Hf as [= ->].
  - intros [Hin Hs]. unfold inventory in Hin.
    elim_names Hin; cbn in Hs; try done; by injection Hs as <-.
Qed.

Lemma resolveReference_by_key_witness :
  Furniture_resolveReference (object [("sku", VString "COUCH1")])
    = Some (furniture "COUCH1" false true) ∧
  Book_resolveReference (object [("isbn", VString "0201633612")])
    = Some (book "0201633612" true false).
Proof.
  split.
  - apply (proj1 (resolveReference_by_key _ "COUCH1" _)).
    + vm_compute. reflexivity.
    + split; [unfold inventory; repeat constructor | reflexivity].
  - apply (proj2 (resolveReference_by_key _ "0201633612" _)).
    + vm_compute. reflexivity.
    + split; [unfold inventory; repeat constructor | reflexivity].
Defined.

(** Property X16.  A reference that lacks the key is not answered with [undefined]:
    [undefined === undefined] holds, so [find] stops at the first entry
    that lacks the property too.  [Furniture.__resolveReference] then
    returns the first book, and [Book.__resolveReference] the first
    piece of furniture. *)
Theorem resolveReference_without_key object :
  (get object "sku" = VUndefined →
     Furniture_resolveReference object = Some (book "0262510871" true true)) ∧
  (get object "isbn" = VUndefined →
     Book_resolveReference object = Some (furniture "TABLE1" true false)).
Proof.
  unfold Furniture_resolveReference, Book_resolveReference.
  split; by intros ->.
Qed.

Lemma resolveReference_without_key_witness :
  Furniture_resolveReference ∅ = Some (book "0262510871" true true) ∧
  Book_resolveReference (object [("sku", VString "TABLE1")])
    = Some (furniture "TABLE1" true false).
Proof.
  split.
  - apply (proj1 (resolveReference_without_key ∅)). vm_compute. reflexivity.
  - apply (proj2 (resolveReference_without_key _)). vm_compute. reflexivity.
Defined.

(** Property X17.  [goodDescription] looks at the first entry of [metadata] only, and
    it throws a [TypeError] instead of returning [false] when there is
    nothing to look at: [metadata] is missing or [null], the list is
    empty, or its first entry is [null] or [undefined]. *)
Theorem goodDescription_first_entry object :
  (nullish (get object "metadata") = true →
     User_goodDescription object = TypeError) ∧
  (get object "metadata" = VArray [] →
     User_goodDescription object = TypeError) ∧
  (∀ entry rest,
     get object "metadata" = VArray (entry :: rest) →
     User_goodDescription object =
       if nullish entry then TypeError
       else Returns (match description entry with
                     | VString s => String.eqb s "2"
                     | _ => false
                     end)).
Proof.
  unfold User_goodDescription. cbn zeta. split; [|split].
  - by intros ->.
  - by intros ->.
  - intros entry rest ->. cbn. by repeat case_match.
Qed.

Lemma goodDescription_first_entry_witness :
  User_goodDescription ∅ = TypeError ∧
  User_goodDescription (object [("metadata", VArray [])]) = TypeError ∧
  User_goodDescription
    (object [("metadata",
              VArray [VObject [("description", VString "2")]; VNull])])
    = Returns true.
Proof.
  split; [|split].
  - apply (proj1 (goodDescription_first_entry ∅)). vm_compute. reflexivity.
  - apply (proj1 (proj2 (goodDescription_first_entry _))). vm_compute. reflexivity.
  - apply (proj2 (proj2 (goodDescription_first_entry _))
             (VObject [("description", VString "2")]) [VNull]).
    vm_compute. reflexivity.
Defined.

End InventoryLookup.
